(** * Instagram posts gateway: request handlers and Graph API resolution

    A shallow embedding of the two Express applications of the repository:
    the mock variant ([server.js], API version 1.0.0) and the Graph API
    variant (API version 2.0.0) with its [InstagramGraphAPI] class and the
    business, public, OAuth and token-exchange routes.

    Conventions of the embedding.
    - A JavaScript string is held as the bytes of its UTF-8 encoding,
      generalised to the strings that are not well formed: a surrogate
      without its pair, which a JSON body can carry, is the three bytes
      [ED A0..BF xx], a sequence that well-formed UTF-8 never contains.
    - A JSON number is an integer [Z]; the decimal rendering is exact on the
      safe-integer range and left to the engine ([unsafeNumberToString])
      outside it.
    - [parseInt] yields the integer it reads; the handlers test it against
      zero and small bounds and render it, so its rounding to a double
      beyond the safe range shows in the rendering alone.
    - A value of a query parameter or of a JSON body can be an object with
      a [toString] entry of its own, which is never a function: converting
      such a value to a string throws, and the conversions ([ToString],
      [parseInt], [encodeURIComponent], the template literals) return an
      [Outcome].
    - Every [axios.get] is one entry of a call log that is threaded through
      the handlers, and its answer comes from an [upstream] oracle that may
      depend on the calls made so far. *)

From Stdlib Require Import ZArith List String Ascii Bool Lia DecimalString.
From Stdlib Require DecimalPos.
Import ListNotations.
Local Open Scope string_scope.
Local Open Scope Z_scope.
Set Warnings "-register-all".

(** ** Characters and strings *)

Module Chars.

Definition code (c : ascii) : N := N_of_ascii c.

Definition between (lo hi : N) (c : ascii) : bool :=
  ((lo <=? code c) && (code c <=? hi))%N.

Definition is_digit (c : ascii) : bool := between 48 57 c.
Definition is_upper (c : ascii) : bool := between 65 90 c.
Definition is_lower (c : ascii) : bool := between 97 122 c.
Definition is_alnum (c : ascii) : bool := is_digit c || is_upper c || is_lower c.

Fixpoint forallb (p : ascii -> bool) (s : string) : bool :=
  match s with
  | EmptyString => true
  | String c r => p c && forallb p r
  end.

(** Number of UTF-16 code units of a string given by its UTF-8 bytes: one
    per non-continuation byte, and one more for the lead byte of a
    four-byte sequence (a surrogate pair). *)
Fixpoint utf16_length (s : string) : Z :=
  match s with
  | EmptyString => 0
  | String c r =>
      (if between 128 191 c then 0 else if between 240 247 c then 2 else 1)
      + utf16_length r
  end.

(** [String.prototype.toLowerCase] restricted to the ASCII letters, the
    instance used for concrete runs. *)
Definition ascii_lower (c : ascii) : ascii :=
  if is_upper c then ascii_of_N (code c + 32) else c.

Fixpoint ascii_toLowerCase (s : string) : string :=
  match s with
  | EmptyString => EmptyString
  | String c r => String (ascii_lower c) (ascii_toLowerCase r)
  end.

End Chars.

(** ** The username pattern of the mock variant

    [/^[a-zA-Z0-9._]{1,30}$/.test(username)]: between one and thirty
    characters, each a letter, a digit, a dot or an underscore.  Every
    character of the class is ASCII, so bytes and code units agree. *)

Definition username_char (c : ascii) : bool :=
  Chars.is_alnum c || Ascii.eqb c "." || Ascii.eqb c "_".

Definition username_regex_test (s : string) : bool :=
  (1 <=? String.length s)%nat && (String.length s <=? 30)%nat
  && Chars.forallb username_char s.

(** ** The percent-encoding of [encodeURIComponent]

    Every byte of the UTF-8 encoding outside the unreserved set
    [A-Z a-z 0-9 - _ . ! ~ * ' ( )] becomes [%XX] in upper-case hex.  A
    surrogate without its pair has no UTF-8 encoding: there is no result
    then, and [encodeURIComponent] throws. *)

Definition uri_unreserved (c : ascii) : bool :=
  Chars.is_alnum c
  || existsb (Ascii.eqb c) ["-"; "_"; "."; "!"; "~"; "*"; "'"; "("; ")"]%char.

Definition hex_digit (n : N) : ascii :=
  if (n <? 10)%N then ascii_of_N (48 + n) else ascii_of_N (55 + n).

Definition percent_encode (c : ascii) : string :=
  String "%" (String (hex_digit (Chars.code c / 16))
                     (String (hex_digit (Chars.code c mod 16)) EmptyString)).

(** The bytes [ED A0..BF] start a surrogate that stands alone. *)
Definition lone_surrogate (c : ascii) (rest : string) : bool :=
  (Chars.code c =? 237)%N
  && match rest with
     | String d _ => Chars.between 160 191 d
     | EmptyString => false
     end.

Fixpoint uri_encode (s : string) : option string :=
  match s with
  | EmptyString => Some EmptyString
  | String c r =>
      if lone_surrogate c r then None
      else match uri_encode r with
           | Some e =>
               Some ((if uri_unreserved c then String c EmptyString
                      else percent_encode c) ++ e)
           | None => None
           end
  end.

(** ** [parseInt] with the radix left out

    Leading white space is skipped, an optional sign is read, a [0x] or
    [0X] prefix selects radix 16 (radix 10 otherwise), and the longest run
    of digits of that radix is the value.  No digit at all gives [NaN],
    which is [None] here. *)

Module ParseInt.

(** The [WhiteSpace] and [LineTerminator] code points, as UTF-8 prefixes:
    TAB, LF, VT, FF, CR, SP, U+00A0, U+1680, U+2000..U+200A, U+2028,
    U+2029, U+202F, U+205F, U+3000, U+FEFF. *)
Definition strip_one_space (s : string) : option string :=
  match s with
  | String c r =>
      if Chars.between 9 13 c || Ascii.eqb c " " then Some r
      else match Chars.code c, r with
           | 194%N, String d r' =>
               if (Chars.code d =? 160)%N then Some r' else None
           | 225%N, String d (String e r') =>
               if ((Chars.code d =? 154) && (Chars.code e =? 128))%N
               then Some r' else None
           | 226%N, String d (String e r') =>
               if ((Chars.code d =? 128)
                   && (Chars.between 128 138 e || Chars.between 168 169 e
                       || (Chars.code e =? 175)))%N
               then Some r'
               else if ((Chars.code d =? 129) && (Chars.code e =? 159))%N
               then Some r' else None
           | 227%N, String d (String e r') =>
               if ((Chars.code d =? 128) && (Chars.code e =? 128))%N
               then Some r' else None
           | 239%N, String d (String e r') =>
               if ((Chars.code d =? 187) && (Chars.code e =? 191))%N
               then Some r' else None
           | _, _ => None
           end
  | EmptyString => None
  end.

Fixpoint trim_start_fuel (fuel : nat) (s : string) : string :=
  match fuel with
  | O => s
  | S k => match strip_one_space s with
           | Some r => trim_start_fuel k r
           | None => s
           end
  end.

(** Each stripped white-space character removes at least one byte, so the
    length of the string is fuel enough. *)
Definition trim_start (s : string) : string :=
  trim_start_fuel (String.length s) s.

Definition digit_value (radix : Z) (c : ascii) : option Z :=
  let v :=
    if Chars.is_digit c then Some (Z.of_N (Chars.code c) - 48)
    else if Chars.is_lower c then Some (Z.of_N (Chars.code c) - 87)
    else if Chars.is_upper c then Some (Z.of_N (Chars.code c) - 55)
    else None in
  match v with
  | Some d => if d <? radix then Some d else None
  | None => None
  end.

(** Longest prefix of digits, accumulated left to right; [seen] records
    whether at least one digit was read. *)
Fixpoint digits (radix : Z) (s : string) (acc : Z) (seen : bool) : option Z :=
  match s with
  | EmptyString => if seen then Some acc else None
  | String c r =>
      match digit_value radix c with
      | Some d => digits radix r (acc * radix + d) true
      | None => if seen then Some acc else None
      end
  end.

Definition parseInt (input : string) : option Z :=
  let s := trim_start input in
  let '(sign, s) :=
    match s with
    | String "-" r => (-1, r)
    | String "+" r => (1, r)
    | _ => (1, s)
    end in
  let '(radix, s) :=
    match s with
    | String "0" (String "x" r) => (16, r)
    | String "0" (String "X" r) => (16, r)
    | _ => (10, s)
    end in
  match digits radix s 0 false with
  | Some n => Some (sign * n)
  | None => None
  end.



End ParseInt.

(** ** JavaScript values

    What [JSON.parse] and the query-string parser can produce, plus
    [undefined] for a missing property or parameter.  An object keeps its
    fields in order; the first binding of a key is the one read. *)

Inductive JsVal : Type :=
| JUndefined
| JNull
| JBool (b : bool)
| JNum (n : Z)
| JStr (s : string)
| JArr (items : list JsVal)
| JObj (fields : list (string * JsVal)).

(** Exceptions: [Error] objects thrown by the code or by axios, the
    [TypeError] the engine raises on a bad property access, call or
    conversion, and the [URIError] of [encodeURIComponent]. *)
Inductive JsError : Type :=
| Error (message : string)
| TypeError (message : string)
| URIError (message : string).

Definition message (e : JsError) : string :=
  match e with
  | Error m => m
  | TypeError m => m
  | URIError m => m
  end.

Inductive Outcome (A : Type) : Type :=
| Return (a : A)
| Throw (e : JsError).
Arguments Return {A} a.
Arguments Throw {A} e.

(** Sequencing of two steps that can throw, left to right. *)
Definition and_then {A B} (o : Outcome A) (k : A -> Outcome B) : Outcome B :=
  match o with
  | Return a => k a
  | Throw e => Throw e
  end.

Declare Scope outcome_scope.
Delimit Scope outcome_scope with outcome.
Notation "x <~ o ;; k" := (and_then o (fun x => k))
  (at level 61, o at next level, right associativity) : outcome_scope.
Local Open Scope outcome_scope.

(** [ToBoolean]: the falsy values are [undefined], [null], [false], [0]
    and the empty string. *)
Definition truthy (v : JsVal) : bool :=
  match v with
  | JUndefined | JNull => false
  | JBool b => b
  | JNum n => negb (n =? 0)
  | JStr s => negb (String.eqb s "")
  | JArr _ | JObj _ => true
  end.

Fixpoint lookup (fields : list (string * JsVal)) (key : string) : JsVal :=
  match fields with
  | [] => JUndefined
  | (k, v) :: rest => if String.eqb k key then v else lookup rest key
  end.

(** Whether the object has an entry of its own under the key. *)
Definition has_own (fields : list (string * JsVal)) (key : string) : bool :=
  existsb (fun entry => String.eqb (fst entry) key) fields.

Definition max_safe_integer : Z := 2 ^ 53 - 1.

(** An HTTP response as the handlers build it: [res.status(s).json(body)],
    the status being 200 when it is not set. *)
Record Response : Type := mkResponse { status : nat; body : JsVal }.

Definition failure (error : string) : JsVal :=
  JObj [("success", JBool false); ("error", JStr error)].

(** One logged call: an [axios.get] of the Graph API variant, or the
    [fetchInstagramData] lookup of the mock variant. *)
Inductive Call : Type :=
| AxiosGet (url : string)
| FetchInstagramData (username : string) (limit : Z).

Definition Log : Type := list Call.

(** What an [axios.get] promise settles to: the parsed body of a 2xx
    answer, or a rejection carrying the error's message. *)
Inductive AxiosResult : Type :=
| Resolve (data : JsVal)
| Reject (reason : string).

(** Effectful code: the call log goes in and comes out, also when the
    computation throws. *)
Definition Async (A : Type) : Type := Log -> Outcome A * Log.

Definition ret {A} (a : A) : Async A := fun log => (Return a, log).

Definition throw {A} (e : JsError) : Async A := fun log => (Throw e, log).

Definition bind {A B} (m : Async A) (k : A -> Async B) : Async B :=
  fun log =>
    match m log with
    | (Return a, log') => k a log'
    | (Throw e, log') => (Throw e, log')
    end.

Definition lift {A} (o : Outcome A) : Async A := fun log => (o, log).

(** [try { body } catch (error) { handler }] *)
Definition try_catch {A} (body : Async A) (handler : JsError -> Async A)
  : Async A :=
  fun log =>
    match body log with
    | (Return a, log') => (Return a, log')
    | (Throw e, log') => handler e log'
    end.

Declare Scope async_scope.
Delimit Scope async_scope with async.
Notation "x <- m ;; k" := (bind m (fun x => k))
  (at level 61, m at next level, right associativity) : async_scope.
Local Open Scope async_scope.

(** The parts of the JavaScript engine that are taken as given:
    Unicode lower-casing, the rendering of a number beyond the safe-integer
    range, the wording of a [TypeError] raised on value [v] for property
    or method [p], and the wording of a [URIError]. *)
Class Engine : Type := {
  toLowerCase : string -> string;
  unsafeNumberToString : Z -> string;
  typeErrorMessage : JsVal -> string -> string;
  uriErrorMessage : string
}.

Section Gateway.

Context {engine : Engine}.

(** The remote side: the answer to a GET of [url] after the calls in
    the log. *)
Variable upstream : Log -> string -> AxiosResult.

(** [Number.prototype.toString] on an integer. *)
Definition Number_toString (n : Z) : string :=
  if Z.abs n <=? max_safe_integer
  then NilZero.string_of_int (Z.to_int n)
  else unsafeNumberToString n.

(** [ToString], as a template literal and [parseInt] apply it.  An array
    is joined with commas, [null] and [undefined] elements giving the empty
    string.  An object is converted by its [toString] method: the inherited
    one gives ["[object Object]"]; an entry of its own under [toString],
    which hides the inherited method and is not a function, leaves no
    method that returns a primitive ([valueOf], inherited or not, does
    not), and the conversion throws a [TypeError]. *)
Fixpoint ToString (v : JsVal) : Outcome string :=
  match v with
  | JUndefined => Return "undefined"
  | JNull => Return "null"
  | JBool true => Return "true"
  | JBool false => Return "false"
  | JNum n => Return (Number_toString n)
  | JStr s => Return s
  | JArr items =>
      (fix join (l : list JsVal) : Outcome string :=
         match l with
         | [] => Return ""
         | x :: rest =>
             first <~ match x with
                      | JUndefined | JNull => Return ""
                      | _ => ToString x
                      end ;;
             match rest with
             | [] => Return first
             | _ :: _ => others <~ join rest ;;
                         Return (first ++ "," ++ others)
             end
         end) items
  | JObj fields =>
      if has_own fields "toString"
      then Throw (TypeError (typeErrorMessage v "toString"))
      else Return "[object Object]"
  end.

(** [encodeURIComponent(v)]: the value as a string, percent-encoded. *)
Definition encodeURIComponent (v : JsVal) : Outcome string :=
  s <~ ToString v ;;
  match uri_encode s with
  | Some encoded => Return encoded
  | None => Throw (URIError uriErrorMessage)
  end.

(** [v.name] and [v[0]] for the names the code reads (field names,
    [length] and the index [0]): a [TypeError] on [undefined] and [null],
    [undefined] for a property that is not there.  Indexing a string gives
    a one-character string, of which only the kind matters: no field is
    ever found on it. *)
Definition get_prop (v : JsVal) (name : string) : Outcome JsVal :=
  match v with
  | JUndefined | JNull => Throw (TypeError (typeErrorMessage v name))
  | JObj fields => Return (lookup fields name)
  | JArr items =>
      if String.eqb name "length"
      then Return (JNum (Z.of_nat (List.length items)))
      else if String.eqb name "0" then Return (nth 0 items JUndefined)
      else Return JUndefined
  | JStr s =>
      if String.eqb name "length" then Return (JNum (Chars.utf16_length s))
      else if String.eqb name "0"
      then Return (match s with
                   | EmptyString => JUndefined
                   | String c _ => JStr (String c EmptyString)
                   end)
      else Return JUndefined
  | JBool _ | JNum _ => Return JUndefined
  end.

(** [v.toLowerCase()]: only a string has the method. *)
Definition call_toLowerCase (v : JsVal) : Outcome string :=
  match v with
  | JStr s => Return (toLowerCase s)
  | _ => Throw (TypeError (typeErrorMessage v "toLowerCase"))
  end.

(** [axios.get(url)]: logs the call and settles as the upstream says; the
    value is the response's [data]. *)
Definition axios_get (url : string) : Async JsVal :=
  fun log =>
    match upstream log url with
    | Resolve data => (Return data, (log ++ [AxiosGet url])%list)
    | Reject reason => (Throw (Error reason), (log ++ [AxiosGet url])%list)
    end.

(** [parseInt(x) || fallback]: the conversion of [x] to a string can
    throw; [NaN] and zero give the fallback. *)
Definition parseInt_or (x : JsVal) (fallback : Z) : Outcome Z :=
  s <~ ToString x ;;
  Return (match ParseInt.parseInt s with
          | Some n => if n =? 0 then fallback else n
          | None => fallback
          end).

(** ** The Graph API variant *)

Definition INSTAGRAM_GRAPH_API_BASE : string := "https://graph.instagram.com".
Definition FACEBOOK_GRAPH_API_BASE : string := "https://graph.facebook.com".

(** The three URLs of the resolution and the URL of the media listing, as
    the template literals of [InstagramGraphAPI] build them: the values are
    converted in the order in which they stand in the text, and the first
    conversion that throws ends the evaluation, before any call. *)
Definition pages_url (accessToken : JsVal) : Outcome string :=
  token <~ ToString accessToken ;;
  Return (FACEBOOK_GRAPH_API_BASE ++ "/me/accounts?access_token=" ++ token).

Definition page_account_url (pageId pageToken : JsVal) : Outcome string :=
  id <~ ToString pageId ;;
  token <~ ToString pageToken ;;
  Return (FACEBOOK_GRAPH_API_BASE ++ "/" ++ id
          ++ "?fields=instagram_business_account&access_token=" ++ token).

Definition profile_url (igAccountId pageToken : JsVal) : Outcome string :=
  id <~ ToString igAccountId ;;
  token <~ ToString pageToken ;;
  Return (INSTAGRAM_GRAPH_API_BASE ++ "/" ++ id
          ++ "?fields=id,username,name,profile_picture_url,followers_count,follows_count,media_count&access_token="
          ++ token).

Definition media_url (accountId accessToken limit : JsVal) : Outcome string :=
  id <~ ToString accountId ;;
  count <~ ToString limit ;;
  token <~ ToString accessToken ;;
  Return (INSTAGRAM_GRAPH_API_BASE ++ "/" ++ id
          ++ "/media?fields=id,caption,media_url,media_type,timestamp,like_count,comments_count,permalink&limit="
          ++ count ++ "&access_token=" ++ token).

(** What [getBusinessAccountInfo] returns. *)
Record AccountInfo : Type := mkAccountInfo {
  accountId : JsVal;
  accessToken : JsVal;
  profile : JsVal
}.

(** [x === 0] *)
Definition is_zero (v : JsVal) : bool :=
  match v with
  | JNum n => n =? 0
  | _ => false
  end.

Definition getBusinessAccountInfo (accessToken : JsVal) : Async AccountInfo :=
  try_catch
    (pagesUrl <- lift (pages_url accessToken) ;;
     pagesData <- axios_get pagesUrl ;;
     pages <- lift (get_prop pagesData "data") ;;
     len <- (if truthy pages then lift (get_prop pages "length")
             else ret JUndefined) ;;
     if negb (truthy pages) || is_zero len
     then throw (Error "No Facebook pages found")
     else
       page <- lift (get_prop pages "0") ;;
       pageId <- lift (get_prop page "id") ;;
       pageToken <- lift (get_prop page "access_token") ;;
       pageUrl <- lift (page_account_url pageId pageToken) ;;
       igAccountData <- axios_get pageUrl ;;
       igAccount <- lift (get_prop igAccountData "instagram_business_account") ;;
       if negb (truthy igAccount)
       then throw (Error "No Instagram business account connected")
       else
         igAccountId <- lift (get_prop igAccount "id") ;;
         profileUrl <- lift (profile_url igAccountId pageToken) ;;
         accountData <- axios_get profileUrl ;;
         ret (mkAccountInfo igAccountId pageToken accountData))
    (fun error =>
       throw (Error ("Failed to get business account info: "
                     ++ message error))).

(** [getBusinessAccountPosts(accountId, accessToken, limit = 25)]: the
    default applies when the argument is [undefined]. *)
Definition default_limit (limit : JsVal) : JsVal :=
  match limit with
  | JUndefined => JNum 25
  | _ => limit
  end.

Definition getBusinessAccountPosts (accountId accessToken limit : JsVal)
  : Async JsVal :=
  let limit := default_limit limit in
  try_catch
    (mediaUrl <- lift (media_url accountId accessToken limit) ;;
     mediaData <- axios_get mediaUrl ;;
     lift (get_prop mediaData "data"))
    (fun error =>
       throw (Error ("Failed to get business posts: " ++ message error))).

(** The fields requested for each media record. *)
Definition post_fields : list string :=
  ["id"; "caption"; "media_url"; "media_type"; "timestamp"; "like_count";
   "comments_count"; "permalink"].

(** A request as a handler sees it: [req.params.username], [req.query]
    (always an object) and [req.body]. *)
Record Request : Type := mkRequest {
  username : string;
  query : list (string * JsVal);
  reqBody : JsVal
}.

(** A handler that cannot leave its [try] block without a response. *)
Definition respond (handler : Async Response)
                   (on_error : JsError -> Response) : Log -> Response * Log :=
  fun log =>
    match handler log with
    | (Return r, log') => (r, log')
    | (Throw e, log') => (on_error e, log')
    end.

(** [GET /api/instagram/business/:username]: the limit is parsed first,
    inside the [try]. *)
Definition business_handler (req : Request) : Log -> Response * Log :=
  respond
    (let access_token := lookup (query req) "access_token" in
     limit <- lift (parseInt_or (lookup (query req) "limit") 25) ;;
     if negb (truthy access_token)
     then ret (mkResponse 400
                 (failure "Access token is required for business accounts"))
     else
       accountInfo <- getBusinessAccountInfo access_token ;;
       resolved <- lift (get_prop (profile accountInfo) "username") ;;
       lowered <- lift (call_toLowerCase resolved) ;;
       if negb (String.eqb lowered (toLowerCase (username req)))
       then ret (mkResponse 404
                   (failure "Username does not match the authenticated business account"))
       else
         posts <- getBusinessAccountPosts (accountId accountInfo)
                    (accessToken accountInfo) (JNum limit) ;;
         ret (mkResponse 200
                (JObj [("success", JBool true);
                       ("username", resolved);
                       ("account_type", JStr "business");
                       ("profile", profile accountInfo);
                       ("posts", posts)])))
    (fun error => mkResponse 500 (failure (message error))).

(** [GET /api/instagram/public/:username] *)
Definition public_handler (req : Request) : Log -> Response * Log :=
  respond
    (limit <- lift (parseInt_or (lookup (query req) "limit") 12) ;;
     ret (mkResponse 501
            (JObj [("success", JBool false);
                   ("error", JStr "Public profile scraping is no longer reliable due to Instagram's restrictions");
                   ("recommendation", JStr "Use Instagram Graph API with business accounts");
                   ("alternatives",
                    JArr [JStr "Convert to Instagram Business account";
                          JStr "Use Instagram Graph API";
                          JStr "Use third-party services like RapidAPI"])])))
    (fun error => mkResponse 500 (failure (message error))).

(** The error-handling middleware, [app.use((err, req, res, next) => ...)]:
    Express hands it what a route handler throws outside a [try]. *)
Definition error_middleware (err : JsError) : Response :=
  mkResponse 500 (failure "Internal server error").

(** [GET /api/auth/instagram]: a handler without a [try]. *)
Definition oauth_url (app_id redirect_uri : JsVal) : Outcome string :=
  client <~ ToString app_id ;;
  redirect <~ encodeURIComponent redirect_uri ;;
  Return ("https://www.facebook.com/v18.0/dialog/oauth?client_id=" ++ client
          ++ "&redirect_uri=" ++ redirect
          ++ "&scope=instagram_basic,pages_show_list,pages_read_engagement&response_type=code").

Definition auth_handler (req : Request) : Response :=
  let app_id := lookup (query req) "app_id" in
  let redirect_uri := lookup (query req) "redirect_uri" in
  if negb (truthy app_id) || negb (truthy redirect_uri)
  then mkResponse 400 (failure "app_id and redirect_uri are required")
  else
    match oauth_url app_id redirect_uri with
    | Throw err => error_middleware err
    | Return authURL =>
        mkResponse 200
          (JObj [("success", JBool true);
                 ("auth_url", JStr authURL);
                 ("instructions",
                  JArr [JStr "1. Visit the auth_url to authorize your app";
                        JStr "2. Copy the authorization code from the redirect";
                        JStr "3. Exchange the code for an access token using /api/auth/token"])])
    end.

(** [POST /api/auth/token] *)
Definition token_url (code app_id app_secret redirect_uri : JsVal)
  : Outcome string :=
  client <~ ToString app_id ;;
  redirect <~ encodeURIComponent redirect_uri ;;
  secret <~ ToString app_secret ;;
  grant <~ ToString code ;;
  Return ("https://graph.facebook.com/v18.0/oauth/access_token?client_id="
          ++ client ++ "&redirect_uri=" ++ redirect
          ++ "&client_secret=" ++ secret ++ "&code=" ++ grant).

Definition token_handler (req : Request) : Log -> Response * Log :=
  respond
    (code <- lift (get_prop (reqBody req) "code") ;;
     app_id <- lift (get_prop (reqBody req) "app_id") ;;
     app_secret <- lift (get_prop (reqBody req) "app_secret") ;;
     redirect_uri <- lift (get_prop (reqBody req) "redirect_uri") ;;
     if negb (truthy code) || negb (truthy app_id)
        || negb (truthy app_secret) || negb (truthy redirect_uri)
     then ret (mkResponse 400
                 (failure "code, app_id, app_secret, and redirect_uri are required"))
     else
       tokenUrl <- lift (token_url code app_id app_secret redirect_uri) ;;
       tokenData <- axios_get tokenUrl ;;
       access_token <- lift (get_prop tokenData "access_token") ;;
       token_type <- lift (get_prop tokenData "token_type") ;;
       expires_in <- lift (get_prop tokenData "expires_in") ;;
       ret (mkResponse 200
              (JObj [("success", JBool true);
                     ("access_token", access_token);
                     ("token_type", token_type);
                     ("expires_in", expires_in)])))
    (fun _ => mkResponse 500 (failure "Failed to exchange code for token")).

(** ** The scraper's fallback

    [InstagramWebScraper.getPublicProfileFallback]: one GET of the embed
    page, with a fixed [User-Agent] header that the call log does not
    record, and an error whatever the answer. *)

Definition INSTAGRAM_WEB_BASE : string := "https://www.instagram.com".

Definition embed_url (username : JsVal) : Outcome string :=
  name <~ ToString username ;;
  Return (INSTAGRAM_WEB_BASE ++ "/p/" ++ name ++ "/embed/").

Definition getPublicProfileFallback (username : JsVal) : Async JsVal :=
  try_catch
    (embedUrl <- lift (embed_url username) ;;
     response <- axios_get embedUrl ;;
     throw (Error "Public profile access is limited. Please use Instagram Graph API for business accounts."))
    (fun error =>
       throw (Error "Unable to access public profile. Instagram has restricted public access.")).

End Gateway.

(** ** The mock variant ([server.js]) *)

Module Mock.

Definition post (id caption url timestamp : string) (likes comments : Z)
  : JsVal :=
  JObj [("id", JStr id); ("caption", JStr caption); ("media_url", JStr url);
        ("media_type", JStr "image"); ("timestamp", JStr timestamp);
        ("likes_count", JNum likes); ("comments_count", JNum comments)].

Definition johndoe : JsVal :=
  JObj [("profile",
         JObj [("username", JStr "johndoe");
               ("full_name", JStr "John Doe");
               ("profile_pic_url", JStr "https://via.placeholder.com/150");
               ("followers_count", JNum 1250);
               ("following_count", JNum 300);
               ("posts_count", JNum 45)]);
        ("posts",
         JArr [post "1" "Beautiful sunset at the beach! ðŸŒ…"
                 "https://via.placeholder.com/400x400/FF6B6B/FFFFFF?text=Sunset"
                 "2024-01-15T18:30:00Z" 124 8;
               post "2" "Coffee and coding session â˜•ï¸ðŸ’»"
                 "https://via.placeholder.com/400x400/4ECDC4/FFFFFF?text=Coffee"
                 "2024-01-14T09:15:00Z" 89 12;
               post "3" "Weekend hiking adventure! ðŸ”ï¸"
                 "https://via.placeholder.com/400x400/45B7D1/FFFFFF?text=Mountain"
                 "2024-01-13T16:45:00Z" 156 23])].

(** [mockUserData[key]]: the one own property, or a member inherited from
    [Object.prototype] (an object without [profile] and [posts]), or
    nothing.  Only two inherited names are entirely lower-case, which is
    all a lower-cased key can hit. *)
Inductive Entry : Type :=
| Own (userData : JsVal)
| Inherited
| Missing.

Definition mockUserData (key : string) : Entry :=
  if String.eqb key "johndoe" then Own johndoe
  else if String.eqb key "constructor" || String.eqb key "__proto__"
  then Inherited
  else Missing.

(** [array.slice(0, limit)] for an integer limit. *)
Definition slice0 (items : list JsVal) (limit : Z) : list JsVal :=
  if limit <? 0
  then firstn (Nat.sub (List.length items) (Z.to_nat (- limit))) items
  else firstn (Z.to_nat limit) items.

Section Handlers.

Context {engine : Engine}.

(** [fetchInstagramData(username, limit)]; the simulated delay has no
    effect on the result. *)
Definition fetchInstagramData (username : string) (limit : Z)
  : Async (JsVal * JsVal) :=
  fun log =>
    let log' := (log ++ [FetchInstagramData username limit])%list in
    match mockUserData (toLowerCase username) with
    | Missing => (Throw (Error "User not found"), log')
    | Inherited => (Throw (TypeError (typeErrorMessage JUndefined "slice")), log')
    | Own userData =>
        match get_prop userData "profile", get_prop userData "posts" with
        | Return profile, Return (JArr posts) =>
            (Return (profile, JArr (slice0 posts limit)), log')
        | _, _ => (Throw (TypeError (typeErrorMessage JUndefined "slice")), log')
        end
    end.

(** [GET /api/instagram/:username] *)
Definition handler (req : Request) : Log -> Response * Log :=
  respond
    (limit <- lift (parseInt_or (lookup (query req) "limit") 12) ;;
     if negb (truthy (JStr (username req)))
        || negb (username_regex_test (username req))
     then ret (mkResponse 400 (failure "Invalid username format"))
     else if (limit <? 1) || (limit >? 50)
     then ret (mkResponse 400 (failure "Limit must be between 1 and 50"))
     else
       data <- fetchInstagramData (username req) limit ;;
       ret (mkResponse 200
              (JObj [("success", JBool true);
                     ("username", JStr (username req));
                     ("profile", fst data);
                     ("posts", snd data)])))
    (fun error =>
       if String.eqb (message error) "User not found"
       then mkResponse 404 (failure "User not found")
       else mkResponse 500 (failure "Internal server error")).

End Handlers.

End Mock.

(** ** A concrete engine and a concrete upstream

    The engine lower-cases the ASCII letters and words its [TypeError]s as
    V8 does.  The upstream is the account of the specification's scenario:
    credential [tok1] owns page [p1] with page token [pt1], which is linked
    to the business account [ig1] named [acct]. *)

Module Scenario.

Definition describe (v : JsVal) : string :=
  match v with
  | JUndefined => "undefined"
  | JNull => "null"
  | _ => "value"
  end.

(** The wording is V8's for the errors the code can raise: a property read
    on [undefined] or [null], the one method call on a value that has no
    such method, and the conversion of an object to a string.  Lower-casing
    is V8's on the ASCII letters and the rendering of an integer is V8's
    within the safe range; the runs below stay within both. *)
#[export] Instance v8 : Engine := {|
  toLowerCase := Chars.ascii_toLowerCase;
  unsafeNumberToString := fun n => NilZero.string_of_int (Z.to_int n);
  typeErrorMessage := fun v p =>
    match v with
    | JUndefined | JNull =>
        "Cannot read properties of " ++ describe v ++ " (reading '" ++ p ++ "')"
    | JObj _ | JArr _ =>
        if String.eqb p "toString"
        then "Cannot convert object to primitive value"
        else "accountInfo.profile.username." ++ p ++ " is not a function"
    | _ => "accountInfo.profile.username." ++ p ++ " is not a function"
    end;
  uriErrorMessage := "URI malformed"
|}.

(** What [?limit[toString]=1] is parsed to: an object that cannot be
    converted to a string. *)
Definition unconvertible : JsVal := JObj [("toString", JStr "1")].

Definition acct_profile : JsVal :=
  JObj [("id", JStr "ig1"); ("username", JStr "acct");
        ("name", JStr "Account"); ("media_count", JNum 2)].

Definition media (id : string) (likes : Z) : JsVal :=
  JObj [("id", JStr id); ("caption", JStr "hello");
        ("media_url", JStr "https://cdn.example/a.jpg");
        ("media_type", JStr "IMAGE");
        ("timestamp", JStr "2024-01-15T18:30:00+0000");
        ("like_count", JNum likes); ("comments_count", JNum 1);
        ("permalink", JStr "https://www.instagram.com/p/a/")].

Definition acct_media : list JsVal := [media "m1" 7; media "m2" 3].

(** The answers do not depend on the calls made before; any request for
    the media of [ig1] with the page token is served, whatever its limit. *)
Definition upstream (_ : Log) (url : string) : AxiosResult :=
  if String.eqb url "https://graph.facebook.com/me/accounts?access_token=tok1"
  then Resolve (JObj [("data", JArr [JObj [("id", JStr "p1");
                                            ("access_token", JStr "pt1")];
                                     JObj [("id", JStr "p2");
                                            ("access_token", JStr "pt2")]])])
  else if String.eqb url "https://graph.facebook.com/me/accounts?access_token=tok0"
  then Resolve (JObj [("data", JArr [])])
  else if String.eqb url "https://graph.facebook.com/p1?fields=instagram_business_account&access_token=pt1"
  then Resolve (JObj [("instagram_business_account", JObj [("id", JStr "ig1")]);
                      ("id", JStr "p1")])
  else if String.eqb url "https://graph.instagram.com/ig1?fields=id,username,name,profile_picture_url,followers_count,follows_count,media_count&access_token=pt1"
  then Resolve acct_profile
  else if String.prefix "https://graph.instagram.com/ig1/media?" url
          && String.eqb (substring (String.length url - 17) 17 url)
                        "&access_token=pt1"
  then Resolve (JObj [("data", JArr acct_media)])
  else Reject "Request failed with status code 400".

(** The query parameter carrying the credential, what the resolution
    returns for it, and the three calls it makes. *)
Definition token : string * JsVal := ("access_token", JStr "tok1").

Definition resolved_info : AccountInfo :=
  mkAccountInfo (JStr "ig1") (JStr "pt1") acct_profile.

Definition resolution_log : Log :=
  [AxiosGet "https://graph.facebook.com/me/accounts?access_token=tok1";
   AxiosGet "https://graph.facebook.com/p1?fields=instagram_business_account&access_token=pt1";
   AxiosGet "https://graph.instagram.com/ig1?fields=id,username,name,profile_picture_url,followers_count,follows_count,media_count&access_token=pt1"].

Definition get_request (username : string) (query : list (string * JsVal))
  : Request :=
  mkRequest username query (JObj []).

(** A second upstream, for the paths off the happy one: [tok2] owns a page
    without a business account, [tok3] an account whose profile has no
    username, [tok4] an account whose media listing is refused, [tok5] an
    account whose media answer has no [data], [tok6] a page listed without
    [id] and [access_token]; and one authorization code that the token
    endpoint accepts. *)
Definition page_of (id token : string) : JsVal :=
  JObj [("data", JArr [JObj [("id", JStr id); ("access_token", JStr token)]])].

Definition linked_to (account : string) : JsVal :=
  JObj [("instagram_business_account", JObj [("id", JStr account)])].

Definition profile_fields : string :=
  "?fields=id,username,name,profile_picture_url,followers_count,follows_count,media_count&access_token=".

Definition media_fields : string :=
  "/media?fields=id,caption,media_url,media_type,timestamp,like_count,comments_count,permalink&limit=25&access_token=".

Definition edge_answers : list (string * AxiosResult) :=
  [("https://graph.facebook.com/me/accounts?access_token=tok2",
    Resolve (page_of "p2" "pt2"));
   ("https://graph.facebook.com/p2?fields=instagram_business_account&access_token=pt2",
    Resolve (JObj [("id", JStr "p2")]));
   ("https://graph.facebook.com/me/accounts?access_token=tok3",
    Resolve (page_of "p3" "pt3"));
   ("https://graph.facebook.com/p3?fields=instagram_business_account&access_token=pt3",
    Resolve (linked_to "ig3"));
   ("https://graph.instagram.com/ig3" ++ profile_fields ++ "pt3",
    Resolve (JObj [("id", JStr "ig3")]));
   ("https://graph.facebook.com/me/accounts?access_token=tok4",
    Resolve (page_of "p4" "pt4"));
   ("https://graph.facebook.com/p4?fields=instagram_business_account&access_token=pt4",
    Resolve (linked_to "ig4"));
   ("https://graph.instagram.com/ig4" ++ profile_fields ++ "pt4",
    Resolve (JObj [("id", JStr "ig4"); ("username", JStr "shop")]));
   ("https://graph.instagram.com/ig4" ++ media_fields ++ "pt4",
    Reject "Request failed with status code 403");
   ("https://graph.facebook.com/me/accounts?access_token=tok5",
    Resolve (page_of "p5" "pt5"));
   ("https://graph.facebook.com/p5?fields=instagram_business_account&access_token=pt5",
    Resolve (linked_to "ig5"));
   ("https://graph.instagram.com/ig5" ++ profile_fields ++ "pt5",
    Resolve (JObj [("id", JStr "ig5"); ("username", JStr "cafe")]));
   ("https://graph.instagram.com/ig5" ++ media_fields ++ "pt5",
    Resolve (JObj [("paging", JObj [])]));
   ("https://graph.facebook.com/me/accounts?access_token=tok6",
    Resolve (JObj [("data", JArr [JObj [("name", JStr "Page")]])]));
   ("https://graph.facebook.com/v18.0/oauth/access_token?client_id=123&redirect_uri=https%3A%2F%2Fexample.com%2Fcb&client_secret=s3cr3t&code=abc",
    Resolve (JObj [("access_token", JStr "EAAB"); ("token_type", JStr "bearer");
                   ("expires_in", JNum 5183944)]))].

Fixpoint answer_of (answers : list (string * AxiosResult)) (url : string)
  : AxiosResult :=
  match answers with
  | [] => Reject "Request failed with status code 400"
  | (u, a) :: rest => if String.eqb u url then a else answer_of rest url
  end.

Definition edge_upstream (_ : Log) (url : string) : AxiosResult :=
  answer_of edge_answers url.

Definition with_token (tok : string) : list (string * JsVal) :=
  [("access_token", JStr tok)].

Definition exchange_body : JsVal :=
  JObj [("code", JStr "abc"); ("app_id", JStr "123");
        ("app_secret", JStr "s3cr3t");
        ("redirect_uri", JStr "https://example.com/cb")].

End Scenario.

(** ** Reasoning about handlers *)

Ltac unfold_async :=
  unfold respond, try_catch, bind, lift, ret, throw, axios_get in *.

Section Resolution.

Context {engine : Engine}.
Variable upstream : Log -> string -> AxiosResult.

(** What the four template literals evaluate to when no conversion
    throws. *)
Lemma pages_url_text (tok : JsVal) (url : string) :
  pages_url tok = Return url ->
  exists t, ToString tok = Return t
            /\ url = "https://graph.facebook.com/me/accounts?access_token=" ++ t.
Proof.
  unfold pages_url, and_then. destruct (ToString tok) as [t|]; [|discriminate].
  intros [= <-]. eauto.
Qed.

Lemma page_account_url_text (pageId pageToken : JsVal) (url : string) :
  page_account_url pageId pageToken = Return url ->
  exists id t,
    ToString pageId = Return id /\ ToString pageToken = Return t
    /\ url = "https://graph.facebook.com/" ++ id
             ++ "?fields=instagram_business_account&access_token=" ++ t.
Proof.
  unfold page_account_url, and_then.
  destruct (ToString pageId) as [id|]; [|discriminate].
  destruct (ToString pageToken) as [t|]; [|discriminate].
  intros [= <-]. eauto.
Qed.

Lemma profile_url_text (account pageToken : JsVal) (url : string) :
  profile_url account pageToken = Return url ->
  exists id t,
    ToString account = Return id /\ ToString pageToken = Return t
    /\ url = "https://graph.instagram.com/" ++ id
             ++ "?fields=id,username,name,profile_picture_url,followers_count,follows_count,media_count&access_token="
             ++ t.
Proof.
  unfold profile_url, and_then.
  destruct (ToString account) as [id|]; [|discriminate].
  destruct (ToString pageToken) as [t|]; [|discriminate].
  intros [= <-]. eauto.
Qed.

Lemma media_url_text (account token limit : JsVal) (id t count : string) :
  ToString account = Return id ->
  ToString token = Return t ->
  ToString limit = Return count ->
  media_url account token limit
  = Return ("https://graph.instagram.com/" ++ id
            ++ "/media?fields=id,caption,media_url,media_type,timestamp,like_count,comments_count,permalink&limit="
            ++ count ++ "&access_token=" ++ t).
Proof.
  intros Ha Ht Hl. unfold media_url, and_then. now rewrite Ha, Hl, Ht.
Qed.

(** Success of the resolution, taken apart: the three answers it read and
    the three calls it logged. *)
Lemma getBusinessAccountInfo_success (tok : JsVal) (log logR : Log)
      (info : AccountInfo) :
  getBusinessAccountInfo upstream tok log = (Return info, logR) ->
  exists pagesData pages page pageId igAccountData igAccount u1 u2 u3,
    pages_url tok = Return u1
    /\ upstream log u1 = Resolve pagesData
    /\ get_prop pagesData "data" = Return pages
    /\ get_prop pages "0" = Return page
    /\ get_prop page "id" = Return pageId
    /\ get_prop page "access_token" = Return (accessToken info)
    /\ page_account_url pageId (accessToken info) = Return u2
    /\ upstream (log ++ [AxiosGet u1])%list u2 = Resolve igAccountData
    /\ get_prop igAccountData "instagram_business_account" = Return igAccount
    /\ get_prop igAccount "id" = Return (accountId info)
    /\ profile_url (accountId info) (accessToken info) = Return u3
    /\ upstream (log ++ [AxiosGet u1; AxiosGet u2])%list u3
       = Resolve (profile info)
    /\ logR = (log ++ [AxiosGet u1; AxiosGet u2; AxiosGet u3])%list.
Proof.
  unfold getBusinessAccountInfo. unfold_async. intros H.
  destruct (pages_url tok) as [u1|] eqn:Hu1; [|discriminate].
  destruct (upstream log u1) as [pagesData|] eqn:Hpages; [|discriminate].
  destruct (get_prop pagesData "data") as [pages|] eqn:Hdata; [|discriminate].
  destruct (truthy pages) eqn:Htruthy; simpl in H; [|discriminate].
  destruct (get_prop pages "length") as [len|] eqn:Hlen; [|discriminate].
  destruct (is_zero len); simpl in H; [discriminate|].
  destruct (get_prop pages "0") as [page|] eqn:Hpage; [|discriminate].
  destruct (get_prop page "id") as [pageId|] eqn:Hid; [|discriminate].
  destruct (get_prop page "access_token") as [pageToken|] eqn:Htoken;
    [|discriminate].
  destruct (page_account_url pageId pageToken) as [u2|] eqn:Hu2;
    [|discriminate].
  destruct (upstream (log ++ [AxiosGet u1])%list u2)
    as [igAccountData|] eqn:Hig; [|discriminate].
  destruct (get_prop igAccountData "instagram_business_account")
    as [igAccount|] eqn:Hacc; [|discriminate].
  destruct (truthy igAccount); simpl in H; [|discriminate].
  destruct (get_prop igAccount "id") as [igAccountId|] eqn:Higid;
    [|discriminate].
  destruct (profile_url igAccountId pageToken) as [u3|] eqn:Hu3;
    [|discriminate].
  rewrite <- app_assoc in H. simpl in H.
  destruct (upstream (log ++ [AxiosGet u1; AxiosGet u2])%list u3)
    as [accountData|] eqn:Hprofile; [|discriminate].
  rewrite <- app_assoc in H. simpl in H.
  injection H as <- <-. simpl.
  exists pagesData, pages, page, pageId, igAccountData, igAccount, u1, u2, u3.
  repeat split; assumption.
Qed.

(** After a successful resolution the account id and the page token are
    values that convert to strings: they stand in the URL of the profile
    call. *)
Lemma resolved_values_convert (tok : JsVal) (log logR : Log)
      (info : AccountInfo) :
  getBusinessAccountInfo upstream tok log = (Return info, logR) ->
  exists id t,
    ToString (accountId info) = Return id
    /\ ToString (accessToken info) = Return t.
Proof.
  intros Hres.
  destruct (getBusinessAccountInfo_success _ _ _ _ Hres)
    as (_ & _ & _ & _ & _ & _ & _ & _ & u3
        & _ & _ & _ & _ & _ & _ & _ & _ & _ & _ & Hu3 & _).
  destruct (profile_url_text _ _ _ Hu3) as (id & t & Hid & Ht & _). eauto.
Qed.

(** The post fetch makes exactly one call, whatever its outcome, once its
    URL is built, and none when a conversion in the URL throws. *)
Lemma getBusinessAccountPosts_log (account token limit : JsVal) (log : Log) :
  snd (getBusinessAccountPosts upstream account token limit log)
  = match media_url account token (default_limit limit) with
    | Return url => (log ++ [AxiosGet url])%list
    | Throw _ => log
    end.
Proof.
  unfold getBusinessAccountPosts. unfold_async.
  destruct (media_url _ _ _) as [url|]; [|reflexivity].
  destruct (upstream log url); [|reflexivity].
  destruct (get_prop _ "data"); reflexivity.
Qed.

(** Once the limit is parsed, the resolution has succeeded and the username
    gate is passed, the handler's answer is decided by the post fetch
    alone. *)
Lemma business_handler_gate_passed (req : Request) (log logR : Log)
      (info : AccountInfo) (resolved : string) (limit : Z) :
  parseInt_or (lookup (query req) "limit") 25 = Return limit ->
  truthy (lookup (query req) "access_token") = true ->
  getBusinessAccountInfo upstream (lookup (query req) "access_token") log
  = (Return info, logR) ->
  get_prop (profile info) "username" = Return (JStr resolved) ->
  toLowerCase resolved = toLowerCase (username req) ->
  business_handler upstream req log
  = match getBusinessAccountPosts upstream (accountId info) (accessToken info)
            (JNum limit) logR with
    | (Return posts, log') =>
        (mkResponse 200
           (JObj [("success", JBool true);
                  ("username", JStr resolved);
                  ("account_type", JStr "business");
                  ("profile", profile info);
                  ("posts", posts)]), log')
    | (Throw error, log') => (mkResponse 500 (failure (message error)), log')
    end.
Proof.
  intros Hlimit Htok Hres Huser Hsame.
  unfold business_handler. unfold_async.
  rewrite Hlimit, Htok. simpl. rewrite Hres, Huser. simpl.
  rewrite Hsame, String.eqb_refl. simpl.
  destruct (getBusinessAccountPosts _ _ _ _ _) as [[posts|error] log'];
    reflexivity.
Qed.

(** The media call of a run that passed the gate, with its URL written
    out. *)
Lemma business_handler_media_call (req : Request) (log logR : Log)
      (info : AccountInfo) (resolved : string) (limit : Z) :
  parseInt_or (lookup (query req) "limit") 25 = Return limit ->
  truthy (lookup (query req) "access_token") = true ->
  getBusinessAccountInfo upstream (lookup (query req) "access_token") log
  = (Return info, logR) ->
  get_prop (profile info) "username" = Return (JStr resolved) ->
  toLowerCase resolved = toLowerCase (username req) ->
  exists id t,
    ToString (accountId info) = Return id
    /\ ToString (accessToken info) = Return t
    /\ snd (business_handler upstream req log)
       = (logR ++ [AxiosGet
                     ("https://graph.instagram.com/" ++ id
                      ++ "/media?fields=id,caption,media_url,media_type,timestamp,like_count,comments_count,permalink&limit="
                      ++ Number_toString limit ++ "&access_token=" ++ t)])%list.
Proof.
  intros Hlimit Htok Hres Huser Hsame.
  destruct (resolved_values_convert _ _ _ _ Hres) as (id & t & Hid & Ht).
  exists id, t. split; [exact Hid|]. split; [exact Ht|].
  rewrite (business_handler_gate_passed _ _ _ _ _ _ Hlimit Htok Hres Huser
                                        Hsame).
  pose proof (getBusinessAccountPosts_log (accountId info) (accessToken info)
                (JNum limit) logR) as Hfetch.
  change (default_limit (JNum limit)) with (JNum limit) in Hfetch.
  rewrite (media_url_text _ _ (JNum limit) id t (Number_toString limit)
                          Hid Ht eq_refl) in Hfetch.
  destruct (getBusinessAccountPosts _ _ _ _ _) as [[posts|error] log'];
    exact Hfetch.
Qed.

(** C1. On the business endpoint, when the limit parameter can be parsed
    (the handler fails before resolving anything otherwise), the resolution
    succeeds and the resolved account's username differs from the path
    username after lower-casing both, the answer is 404 with
    [success: false], and the call log is the one the resolution left: the
    post fetch, which logs a call whenever its URL can be built, as it can
    after a resolution, was not invoked.  Conversely a 200 answer, the only
    one carrying posts, is given only when the two lower-cased usernames
    are equal. *)
Theorem business_username_gate (req : Request) (log : Log) :
  (forall info logR resolved limit,
      parseInt_or (lookup (query req) "limit") 25 = Return limit ->
      truthy (lookup (query req) "access_token") = true ->
      getBusinessAccountInfo upstream (lookup (query req) "access_token") log
      = (Return info, logR) ->
      get_prop (profile info) "username" = Return (JStr resolved) ->
      toLowerCase resolved <> toLowerCase (username req) ->
      business_handler upstream req log
      = (mkResponse 404
           (JObj [("success", JBool false);
                  ("error", JStr "Username does not match the authenticated business account")]),
         logR))
  /\ (forall response log',
         business_handler upstream req log = (response, log') ->
         status response = 200%nat ->
         exists info logR resolved,
           getBusinessAccountInfo upstream (lookup (query req) "access_token")
                                  log = (Return info, logR)
           /\ get_prop (profile info) "username" = Return (JStr resolved)
           /\ toLowerCase resolved = toLowerCase (username req)).
Proof.
  split.
  - intros info logR resolved limit Hlimit Htok Hres Huser Hdiff.
    unfold business_handler. unfold_async.
    rewrite Hlimit, Htok. simpl. rewrite Hres, Huser. simpl.
    apply String.eqb_neq in Hdiff. rewrite Hdiff. reflexivity.
  - intros response log'. unfold business_handler. unfold_async.
    destruct (parseInt_or _ 25) as [limit|error];
      [|intros [= <- <-]; discriminate].
    destruct (truthy (lookup (query req) "access_token")); simpl;
      [|intros [= <- <-]; discriminate].
    destruct (getBusinessAccountInfo _ _ _) as [[info|error] logR];
      [|intros [= <- <-]; discriminate].
    destruct (get_prop (profile info) "username") as [resolved|error] eqn:Huser;
      [|intros [= <- <-]; discriminate].
    destruct resolved; simpl; try (intros [= <- <-]; discriminate).
    destruct (String.eqb (toLowerCase s) (toLowerCase (username req)))
      eqn:Hsame; simpl; [|intros [= <- <-]; discriminate].
    intros _ _. exists info, logR, s. apply String.eqb_eq in Hsame. auto.
Qed.

(** C4. When the list of linked pages is absent, [null] or empty, the
    resolution fails with the no-pages error, and the listing of the pages
    is the only call made: neither the page's business account nor the
    profile is asked for. *)
Theorem no_linked_pages_stops_resolution (tok : JsVal) (log : Log)
        (t : string) (pagesData pages : JsVal) :
  ToString tok = Return t ->
  upstream log ("https://graph.facebook.com/me/accounts?access_token=" ++ t)
  = Resolve pagesData ->
  get_prop pagesData "data" = Return pages ->
  pages = JUndefined \/ pages = JNull \/ pages = JArr [] ->
  getBusinessAccountInfo upstream tok log
  = (Throw (Error "Failed to get business account info: No Facebook pages found"),
     (log ++ [AxiosGet ("https://graph.facebook.com/me/accounts?access_token="
                        ++ t)])%list).
Proof.
  intros Htok Hpages Hdata Hempty.
  unfold getBusinessAccountInfo, pages_url. unfold_async.
  rewrite Htok. simpl and_then. simpl in Hpages |- *. rewrite Hpages, Hdata.
  destruct Hempty as [-> | [-> | ->]]; reflexivity.
Qed.

(** C5. In every successful resolution the page read is element [0] of the
    pages list (its head, when the list is an array), the token returned is
    that page's [access_token], and the text of this token, not of the
    caller's, is what follows [access_token=] in the URL of the
    page-account call, of the profile call and, once the username gate is
    passed, of the media call. *)
Theorem page_token_used_downstream (req : Request) (log logR : Log)
        (info : AccountInfo) :
  getBusinessAccountInfo upstream (lookup (query req) "access_token") log
  = (Return info, logR) ->
  exists pagesData pages page pageId caller id account pageToken,
    ToString (lookup (query req) "access_token") = Return caller
    /\ upstream log
         ("https://graph.facebook.com/me/accounts?access_token=" ++ caller)
       = Resolve pagesData
    /\ get_prop pagesData "data" = Return pages
    /\ get_prop pages "0" = Return page
    /\ (forall first rest, pages = JArr (first :: rest) -> page = first)
    /\ get_prop page "id" = Return pageId
    /\ get_prop page "access_token" = Return (accessToken info)
    /\ ToString pageId = Return id
    /\ ToString (accountId info) = Return account
    /\ ToString (accessToken info) = Return pageToken
    /\ logR
       = (log
          ++ [AxiosGet ("https://graph.facebook.com/me/accounts?access_token="
                        ++ caller);
              AxiosGet ("https://graph.facebook.com/" ++ id
                        ++ "?fields=instagram_business_account&access_token="
                        ++ pageToken);
              AxiosGet ("https://graph.instagram.com/" ++ account
                        ++ "?fields=id,username,name,profile_picture_url,followers_count,follows_count,media_count&access_token="
                        ++ pageToken)])%list
    /\ (forall resolved limit,
           parseInt_or (lookup (query req) "limit") 25 = Return limit ->
           truthy (lookup (query req) "access_token") = true ->
           get_prop (profile info) "username" = Return (JStr resolved) ->
           toLowerCase resolved = toLowerCase (username req) ->
           snd (business_handler upstream req log)
           = (logR
              ++ [AxiosGet ("https://graph.instagram.com/" ++ account
                            ++ "/media?fields=id,caption,media_url,media_type,timestamp,like_count,comments_count,permalink&limit="
                            ++ Number_toString limit ++ "&access_token="
                            ++ pageToken)])%list).
Proof.
  intros Hres.
  destruct (getBusinessAccountInfo_success _ _ _ _ Hres)
    as (pagesData & pages & page & pageId & igAccountData & igAccount
        & u1 & u2 & u3 & Hu1 & Hpages & Hdata & Hpage & Hid & Htoken
        & Hu2 & _ & _ & _ & Hu3 & _ & Hlog).
  destruct (pages_url_text _ _ Hu1) as (caller & Hcaller & ->).
  destruct (page_account_url_text _ _ _ Hu2) as (id & pageToken & Hpid & Hpt & ->).
  destruct (profile_url_text _ _ _ Hu3) as (account & pageToken' & Hacc & Hpt' & ->).
  assert (pageToken' = pageToken) as -> by congruence.
  exists pagesData, pages, page, pageId, caller, id, account, pageToken.
  repeat (split; [assumption|]).
  split.
  { intros first rest ->. simpl in Hpage. now injection Hpage as <-. }
  repeat (split; [assumption|]).
  intros resolved limit Hlimit Htok Huser Hsame.
  destruct (business_handler_media_call _ _ _ _ _ _ Hlimit Htok Hres Huser
                                        Hsame)
    as (account' & pageToken' & Hacc' & Hpt'' & Hcall).
  assert (account' = account) as -> by congruence.
  assert (pageToken' = pageToken) as -> by congruence.
  exact Hcall.
Qed.

(** C6. When the media listing answers with an array of records, the post
    fetch returns an array of the same length whose i-th post has, for each
    of the eight requested fields, the value of the i-th record (no bound
    on the number of records is needed); and the business handler, the gate
    passed, answers 200 with that array as [posts]. *)
Theorem posts_returned_as_listed (account token limit : JsVal) (log : Log)
        (id t count : string) (mediaData : JsVal) (records : list JsVal) :
  ToString account = Return id ->
  ToString token = Return t ->
  ToString (default_limit limit) = Return count ->
  upstream log
    ("https://graph.instagram.com/" ++ id
     ++ "/media?fields=id,caption,media_url,media_type,timestamp,like_count,comments_count,permalink&limit="
     ++ count ++ "&access_token=" ++ t)
  = Resolve mediaData ->
  get_prop mediaData "data" = Return (JArr records) ->
  (exists posts,
      getBusinessAccountPosts upstream account token limit log
      = (Return (JArr posts),
         (log ++ [AxiosGet
                    ("https://graph.instagram.com/" ++ id
                     ++ "/media?fields=id,caption,media_url,media_type,timestamp,like_count,comments_count,permalink&limit="
                     ++ count ++ "&access_token=" ++ t)])%list)
      /\ List.length posts = List.length records
      /\ forall i record,
          nth_error records i = Some record ->
          exists post,
            nth_error posts i = Some post
            /\ forall field, In field post_fields ->
                             get_prop post field = get_prop record field)
  /\ (forall req log0 info resolved n,
         parseInt_or (lookup (query req) "limit") 25 = Return n ->
         truthy (lookup (query req) "access_token") = true ->
         getBusinessAccountInfo upstream (lookup (query req) "access_token")
                                log0 = (Return info, log) ->
         get_prop (profile info) "username" = Return (JStr resolved) ->
         toLowerCase resolved = toLowerCase (username req) ->
         account = accountId info -> token = accessToken info ->
         limit = JNum n ->
         business_handler upstream req log0
         = (mkResponse 200
              (JObj [("success", JBool true);
                     ("username", JStr resolved);
                     ("account_type", JStr "business");
                     ("profile", profile info);
                     ("posts", JArr records)]),
            (log ++ [AxiosGet
                       ("https://graph.instagram.com/" ++ id
                        ++ "/media?fields=id,caption,media_url,media_type,timestamp,like_count,comments_count,permalink&limit="
                        ++ count ++ "&access_token=" ++ t)])%list)).
Proof.
  intros Ha Ht Hl Hmedia Hdata.
  assert (Hfetch :
            getBusinessAccountPosts upstream account token limit log
            = (Return (JArr records),
               (log ++ [AxiosGet
                          ("https://graph.instagram.com/" ++ id
                           ++ "/media?fields=id,caption,media_url,media_type,timestamp,like_count,comments_count,permalink&limit="
                           ++ count ++ "&access_token=" ++ t)])%list)).
  { unfold getBusinessAccountPosts. unfold_async.
    rewrite (media_url_text _ _ _ _ _ _ Ha Ht Hl).
    simpl in Hmedia |- *. now rewrite Hmedia, Hdata. }
  split.
  - exists records. split; [exact Hfetch|]. split; [reflexivity|].
    intros i record Hnth. exists record. auto.
  - intros req log0 info resolved n Hlimit Htok Hres Huser Hsame Ha' Ht' Hl'.
    rewrite (business_handler_gate_passed _ _ _ _ _ _ Hlimit Htok Hres Huser
                                          Hsame).
    rewrite <- Ha', <- Ht', <- Hl', Hfetch. reflexivity.
Qed.

(** C7. A token exchange whose body lacks one of [code], [app_id],
    [app_secret], [redirect_uri] is answered 400 with [success: false], and
    the call log is untouched: no outbound call was issued. *)
Theorem token_missing_field_400 (req : Request) (log : Log) (missing : string) :
  In missing ["code"; "app_id"; "app_secret"; "redirect_uri"] ->
  get_prop (reqBody req) missing = Return JUndefined ->
  token_handler upstream req log
  = (mkResponse 400
       (JObj [("success", JBool false);
              ("error", JStr "code, app_id, app_secret, and redirect_uri are required")]),
     log).
Proof.
  intros Hin Hmissing.
  assert (Hbody : forall name, exists v, get_prop (reqBody req) name = Return v).
  { intros name. destruct (reqBody req); simpl in *; try discriminate; eauto.
    - destruct (String.eqb name "length"); eauto.
      destruct (String.eqb name "0"); eauto.
    - destruct (String.eqb name "length"); eauto.
      destruct (String.eqb name "0"); eauto. }
  unfold token_handler. unfold_async.
  destruct (Hbody "code") as [code Hcode].
  destruct (Hbody "app_id") as [app_id Happ].
  destruct (Hbody "app_secret") as [app_secret Hsecret].
  destruct (Hbody "redirect_uri") as [redirect_uri Huri].
  rewrite Hcode, Happ, Hsecret, Huri.
  assert (Hfalsy : negb (truthy code) || negb (truthy app_id)
                   || negb (truthy app_secret) || negb (truthy redirect_uri)
                   = true).
  { simpl in Hin.
    destruct Hin as [<- | [<- | [<- | [<- | []]]]];
      rewrite Hmissing in *.
    - injection Hcode as <-. reflexivity.
    - injection Happ as <-. simpl. now rewrite orb_true_r.
    - injection Hsecret as <-. simpl. now rewrite !orb_true_r.
    - injection Huri as <-. simpl. now rewrite !orb_true_r. }
  rewrite Hfalsy. reflexivity.
Qed.



(** C10, as the code has it.  The public endpoint never calls upstream.  It
    answers 501 with [success: false] and the explanation for every
    username and every limit that converts to a string, as every absent or
    textual limit does; a limit that cannot be converted, an object with a
    [toString] entry of its own, makes [parseInt] throw inside the [try],
    and the answer is 500 with the error's message. *)
Theorem public_endpoint_never_calls_upstream (req : Request) (log : Log) :
  snd (public_handler req log) = log
  /\ (forall s,
         ToString (lookup (query req) "limit") = Return s ->
         fst (public_handler req log)
         = mkResponse 501
             (JObj [("success", JBool false);
                    ("error", JStr "Public profile scraping is no longer reliable due to Instagram's restrictions");
                    ("recommendation", JStr "Use Instagram Graph API with business accounts");
                    ("alternatives",
                     JArr [JStr "Convert to Instagram Business account";
                           JStr "Use Instagram Graph API";
                           JStr "Use third-party services like RapidAPI"])]))
  /\ (forall error,
         ToString (lookup (query req) "limit") = Throw error ->
         fst (public_handler req log)
         = mkResponse 500
             (JObj [("success", JBool false);
                    ("error", JStr (message error))])).
Proof.
  unfold public_handler, parseInt_or, and_then. unfold_async.
  destruct (ToString (lookup (query req) "limit")) as [s|error]; simpl.
  - split; [reflexivity|]. split; [reflexivity|]. discriminate.
  - split; [reflexivity|]. split; [discriminate|]. now intros e [= <-].
Qed.

(** The resolution starts by listing the pages, whatever happens next, as
    soon as the caller's token converts to a string. *)
Lemma getBusinessAccountInfo_first_call (tok : JsVal) (t : string) (log : Log) :
  ToString tok = Return t ->
  exists rest,
    snd (getBusinessAccountInfo upstream tok log)
    = (log ++ AxiosGet ("https://graph.facebook.com/me/accounts?access_token="
                        ++ t) :: rest)%list.
Proof.
  intros Htok. unfold getBusinessAccountInfo, pages_url. unfold_async.
  rewrite Htok. simpl and_then.
  repeat (simpl;
          match goal with
          | |- context [upstream ?l ?u] => destruct (upstream l u)
          | |- context [get_prop ?v ?n] => destruct (get_prop v n)
          | |- context [page_account_url ?a ?b] =>
              destruct (page_account_url a b)
          | |- context [profile_url ?a ?b] => destruct (profile_url a b)
          | |- context [truthy ?v] => destruct (truthy v)
          | |- context [is_zero ?v] => destruct (is_zero v)
          end);
    simpl; rewrite <- ?app_assoc; simpl; eexists; reflexivity.
Qed.

(** C2, as the code has it.  The mock variant never fetches anything for a
    username that does not match the pattern: it answers 400 with the
    invalid-username message whenever the limit parameter converts to a
    string, and from its [catch] when converting it throws.  The business
    endpoint has no such check: given an access token and a limit that
    convert, it lists the pages upstream whatever the path username is,
    and the username is examined only by the gate that follows the
    resolution. *)
Theorem username_pattern_checked_by_mock_variant :
  (forall (req : Request) (log : Log),
      username_regex_test (username req) = false ->
      snd (Mock.handler req log) = log
      /\ (forall s,
             ToString (lookup (query req) "limit") = Return s ->
             fst (Mock.handler req log)
             = mkResponse 400
                 (JObj [("success", JBool false);
                        ("error", JStr "Invalid username format")]))
      /\ (forall error,
             ToString (lookup (query req) "limit") = Throw error ->
             fst (Mock.handler req log)
             = if String.eqb (message error) "User not found"
               then mkResponse 404
                      (JObj [("success", JBool false);
                             ("error", JStr "User not found")])
               else mkResponse 500
                      (JObj [("success", JBool false);
                             ("error", JStr "Internal server error")])))
  /\ (forall (req : Request) (log : Log) (t s : string),
         truthy (lookup (query req) "access_token") = true ->
         ToString (lookup (query req) "access_token") = Return t ->
         ToString (lookup (query req) "limit") = Return s ->
         exists rest,
           snd (business_handler upstream req log)
           = (log ++ AxiosGet
                       ("https://graph.facebook.com/me/accounts?access_token="
                        ++ t) :: rest)%list).
Proof.
  split.
  - intros req log Hbad. unfold Mock.handler, parseInt_or, and_then.
    unfold_async. rewrite Hbad.
    destruct (ToString (lookup (query req) "limit")) as [s|error]; simpl.
    + rewrite orb_true_r. simpl.
      split; [reflexivity|]. split; [reflexivity|]. discriminate.
    + split; [reflexivity|]. split; [discriminate|].
      intros e [= <-]. now destruct (String.eqb _ _).
  - intros req log t s Htok Ht Hs.
    destruct (getBusinessAccountInfo_first_call
                (lookup (query req) "access_token") t log Ht) as [rest Hrest].
    unfold business_handler, parseInt_or, and_then. unfold_async.
    rewrite Hs, Htok. simpl.
    destruct (getBusinessAccountInfo _ _ _) as [[info|error] logR];
      simpl in Hrest; subst logR; [|eexists; reflexivity].
    destruct (get_prop (profile info) "username") as [resolved|error];
      [|eexists; reflexivity].
    destruct (call_toLowerCase resolved) as [lowered|error];
      [|eexists; reflexivity].
    destruct (String.eqb lowered _); simpl; [|eexists; reflexivity].
    match goal with
    | |- context [getBusinessAccountPosts ?u ?a ?t ?l ?g] =>
        pose proof (getBusinessAccountPosts_log a t l g) as Hfetch;
        destruct (getBusinessAccountPosts u a t l g) as [[posts|error] log']
    end; simpl in *; subst log';
      destruct (media_url _ _ _); rewrite <- ?app_assoc; simpl;
      eexists; reflexivity.
Qed.

End Resolution.

Section Auth.

Context {engine : Engine}.

Lemma forallb_append (p : ascii -> bool) (s t : string) :
  Chars.forallb p (s ++ t) = Chars.forallb p s && Chars.forallb p t.
Proof.
  induction s as [|c s IH]; simpl; [reflexivity|].
  now rewrite IH, andb_assoc.
Qed.

(** The encoding leaves nothing but unreserved characters and percent
    signs. *)
Lemma uri_encode_safe (s encoded : string) :
  uri_encode s = Some encoded ->
  Chars.forallb (fun c => uri_unreserved c || Ascii.eqb c "%") encoded = true.
Proof.
  revert encoded. induction s as [|c s IH]; intros encoded; simpl.
  - now intros [= <-].
  - destruct (lone_surrogate c s); [discriminate|].
    destruct (uri_encode s) as [e|]; [|discriminate].
    intros [= <-]. rewrite forallb_append, (IH e eq_refl), andb_true_r.
    destruct c as [[] [] [] [] [] [] [] []]; reflexivity.
Qed.

(** C8, as the code has it.  With [app_id] and [redirect_uri] both present,
    not empty and convertible to text, as every string without a lone
    surrogate is, the answer carries the OAuth URL with the text of
    [app_id] as it is and that of [redirect_uri] percent-encoded; with
    either of them missing or empty the answer is 400; and when a
    conversion throws, the error middleware answers 500. *)
Theorem auth_url_built (req : Request) :
  (forall client redirect encoded,
      truthy (lookup (query req) "app_id") = true ->
      truthy (lookup (query req) "redirect_uri") = true ->
      ToString (lookup (query req) "app_id") = Return client ->
      ToString (lookup (query req) "redirect_uri") = Return redirect ->
      uri_encode redirect = Some encoded ->
      auth_handler req
      = mkResponse 200
          (JObj [("success", JBool true);
                 ("auth_url",
                  JStr ("https://www.facebook.com/v18.0/dialog/oauth?client_id="
                        ++ client ++ "&redirect_uri=" ++ encoded
                        ++ "&scope=instagram_basic,pages_show_list,pages_read_engagement&response_type=code"));
                 ("instructions",
                  JArr [JStr "1. Visit the auth_url to authorize your app";
                        JStr "2. Copy the authorization code from the redirect";
                        JStr "3. Exchange the code for an access token using /api/auth/token"])]))
  /\ (truthy (lookup (query req) "app_id") = false
      \/ truthy (lookup (query req) "redirect_uri") = false ->
      auth_handler req
      = mkResponse 400
          (JObj [("success", JBool false);
                 ("error", JStr "app_id and redirect_uri are required")]))
  /\ (forall error,
         truthy (lookup (query req) "app_id") = true ->
         truthy (lookup (query req) "redirect_uri") = true ->
         ToString (lookup (query req) "app_id") = Throw error
         \/ ((exists client,
                 ToString (lookup (query req) "app_id") = Return client)
             /\ encodeURIComponent (lookup (query req) "redirect_uri")
                = Throw error) ->
         auth_handler req
         = mkResponse 500
             (JObj [("success", JBool false);
                    ("error", JStr "Internal server error")])).
Proof.
  unfold auth_handler, oauth_url, encodeURIComponent, and_then.
  split; [|split].
  - intros client redirect encoded -> -> -> -> ->. reflexivity.
  - intros [-> | ->]; [reflexivity|]. now rewrite orb_true_r.
  - intros error -> -> [-> | [[client ->] Henc]]; simpl; [reflexivity|].
    destruct (ToString (lookup (query req) "redirect_uri")); [|reflexivity].
    destruct (uri_encode _); [discriminate|reflexivity].
Qed.

End Auth.
(** ** [parseInt] on decimal renderings *)

Section DecimalLimits.

Import Decimal.

Ltac eval_digit :=
  match goal with
  | |- context [ParseInt.digit_value 10 ?c] =>
      let v := eval vm_compute in (ParseInt.digit_value 10 c) in
      change (ParseInt.digit_value 10 c) with v
  end; cbv iota beta.

Lemma digits_of_uint_acc (d : uint) (acc : positive) :
  ParseInt.digits 10 (NilEmpty.string_of_uint d) (Z.pos acc) true
  = Some (Z.pos (Pos.of_uint_acc d acc)).
Proof.
  revert acc.
  induction d as [|d IH|d IH|d IH|d IH|d IH|d IH|d IH|d IH|d IH|d IH];
    intros acc; [reflexivity|..];
    cbn [NilEmpty.string_of_uint ParseInt.digits Pos.of_uint_acc];
    eval_digit; rewrite <- IH; f_equal; lia.
Qed.

Lemma digits_of_uint (d : uint) (seen : bool) :
  d <> Nil ->
  ParseInt.digits 10 (NilEmpty.string_of_uint d) 0 seen
  = Some (Z.of_N (Pos.of_uint d)).
Proof.
  revert seen.
  induction d as [|d IH|d IH|d IH|d IH|d IH|d IH|d IH|d IH|d IH|d IH];
    intros seen Hd; [now destruct Hd|..];
    cbn [NilEmpty.string_of_uint ParseInt.digits Pos.of_uint];
    eval_digit; cbn [Z.mul Z.add Z.of_N]; try apply digits_of_uint_acc.
  destruct d; try (apply IH; discriminate). reflexivity.
Qed.

(** A non-empty run of decimal digits parses to the number it writes, and
    with a minus sign in front to its opposite. *)
Lemma parseInt_of_uint (d : uint) :
  d <> Nil ->
  ParseInt.parseInt (NilEmpty.string_of_uint d) = Some (Z.of_N (Pos.of_uint d))
  /\ ParseInt.parseInt (String "-" (NilEmpty.string_of_uint d))
     = Some (- Z.of_N (Pos.of_uint d)).
Proof.
  intros Hd.
  assert (Hbody :
            (let '(radix, u) :=
               match NilEmpty.string_of_uint d with
               | String "0" (String "x" r) => (16, r)
               | String "0" (String "X" r) => (16, r)
               | _ => (10, NilEmpty.string_of_uint d)
               end in ParseInt.digits radix u 0 false)
            = Some (Z.of_N (Pos.of_uint d))).
  { rewrite <- (digits_of_uint d false Hd).
    destruct d as [|d|d|d|d|d|d|d|d|d|d]; [now destruct Hd|..];
      try reflexivity.
    destruct d; reflexivity. }
  assert (Htrim : ParseInt.trim_start (NilEmpty.string_of_uint d)
                  = NilEmpty.string_of_uint d
                  /\ ParseInt.trim_start (String "-" (NilEmpty.string_of_uint d))
                     = String "-" (NilEmpty.string_of_uint d)).
  { unfold ParseInt.trim_start.
    destruct d as [|d|d|d|d|d|d|d|d|d|d]; [now destruct Hd|..];
      split; reflexivity. }
  destruct Htrim as [Hplain Hminus].
  unfold ParseInt.parseInt. rewrite Hplain, Hminus. split.
  - replace (match NilEmpty.string_of_uint d with
             | String "-" r => (-1, r)
             | String "+" r => (1, r)
             | _ => (1, NilEmpty.string_of_uint d)
             end) with (1, NilEmpty.string_of_uint d)
      by (destruct d; try reflexivity; now destruct Hd).
    cbv beta iota zeta in Hbody |- *.
    destruct (match NilEmpty.string_of_uint d with
              | String "0" (String "x" r) => (16, r)
              | String "0" (String "X" r) => (16, r)
              | _ => (10, NilEmpty.string_of_uint d)
              end) as [radix u].
    rewrite Hbody. now destruct (Pos.of_uint d).
  - cbv beta iota zeta in Hbody |- *.
    destruct (match NilEmpty.string_of_uint d with
              | String "0" (String "x" r) => (16, r)
              | String "0" (String "X" r) => (16, r)
              | _ => (10, NilEmpty.string_of_uint d)
              end) as [radix u].
    rewrite Hbody. now destruct (Pos.of_uint d).
Qed.

(** [parseInt] reads back the decimal rendering of every integer. *)
Lemma parseInt_decimal (n : Z) :
  ParseInt.parseInt (NilZero.string_of_int (Z.to_int n)) = Some n.
Proof.
  destruct n as [|p|p]; [reflexivity|..]; simpl.
  - pose proof (DecimalPos.Unsigned.to_uint_nonnil p) as Hd.
    replace (NilZero.string_of_uint (Pos.to_uint p))
      with (NilEmpty.string_of_uint (Pos.to_uint p))
      by (now destruct (Pos.to_uint p)).
    rewrite (proj1 (parseInt_of_uint _ Hd)).
    now rewrite DecimalPos.Unsigned.of_to.
  - pose proof (DecimalPos.Unsigned.to_uint_nonnil p) as Hd.
    replace (NilZero.string_of_uint (Pos.to_uint p))
      with (NilEmpty.string_of_uint (Pos.to_uint p))
      by (now destruct (Pos.to_uint p)).
    rewrite (proj2 (parseInt_of_uint _ Hd)).
    now rewrite DecimalPos.Unsigned.of_to.
Qed.

End DecimalLimits.

(** ** Further behaviour of the Graph API variant *)

Section GraphBehaviour.

Context {engine : Engine}.
Variable upstream : Log -> string -> AxiosResult.

(** Case analysis along the resolution: each URL, upstream answer,
    property read and truthiness test in turn. *)
Ltac walk_resolution :=
  repeat (simpl;
          match goal with
          | |- context [upstream ?l ?u] => destruct (upstream l u)
          | |- context [get_prop ?v ?n] => destruct (get_prop v n)
          | |- context [page_account_url ?a ?b] =>
              destruct (page_account_url a b)
          | |- context [profile_url ?a ?b] => destruct (profile_url a b)
          | |- context [truthy ?v] => destruct (truthy v)
          | |- context [is_zero ?v] => destruct (is_zero v)
          end);
  simpl; rewrite <- ?app_assoc; simpl.

Lemma getBusinessAccountInfo_calls (tok : JsVal) (log : Log) :
  exists calls,
    snd (getBusinessAccountInfo upstream tok log) = (log ++ calls)%list
    /\ match fst (getBusinessAccountInfo upstream tok log) with
       | Return _ => List.length calls = 3%nat
       | Throw e =>
           (List.length calls <= 3)%nat
           /\ (forall t, ToString tok = Return t ->
                         (1 <= List.length calls)%nat)
           /\ (forall error, ToString tok = Throw error -> calls = [])
           /\ exists reason,
               e = Error ("Failed to get business account info: " ++ reason)
       end.
Proof.
  unfold getBusinessAccountInfo, pages_url, and_then. unfold_async.
  destruct (ToString tok) as [t|error].
  - walk_resolution;
      eexists; (split; [reflexivity|]); simpl; try reflexivity;
      (split; [lia|]); (split; [intros; lia|]);
      (split; [discriminate|]); eexists; reflexivity.
  - exists []. rewrite app_nil_r. simpl. split; [reflexivity|].
    split; [lia|]. split; [discriminate|]. split; [reflexivity|].
    eexists; reflexivity.
Qed.

(** A post fetch that returns has made its one call. *)
Lemma getBusinessAccountPosts_return (account token limit posts : JsVal)
      (log log' : Log) :
  getBusinessAccountPosts upstream account token limit log
  = (Return posts, log') ->
  exists url, log' = (log ++ [AxiosGet url])%list.
Proof.
  unfold getBusinessAccountPosts. unfold_async.
  destruct (media_url _ _ _) as [url|]; [|discriminate].
  destruct (upstream log url); [|discriminate].
  destruct (get_prop _ "data"); [|discriminate].
  intros [= _ <-]. eauto.
Qed.

(** The business handler, written as the decision tree it is. *)
Lemma business_handler_tree (req : Request) (log : Log) :
  business_handler upstream req log
  = match parseInt_or (lookup (query req) "limit") 25 with
    | Throw e => (mkResponse 500 (failure (message e)), log)
    | Return limit =>
    if negb (truthy (lookup (query req) "access_token"))
    then (mkResponse 400
            (failure "Access token is required for business accounts"), log)
    else
      match getBusinessAccountInfo upstream
              (lookup (query req) "access_token") log with
      | (Throw e, logR) => (mkResponse 500 (failure (message e)), logR)
      | (Return info, logR) =>
          match get_prop (profile info) "username" with
          | Throw e => (mkResponse 500 (failure (message e)), logR)
          | Return resolved =>
              match call_toLowerCase resolved with
              | Throw e => (mkResponse 500 (failure (message e)), logR)
              | Return lowered =>
                  if negb (String.eqb lowered (toLowerCase (username req)))
                  then (mkResponse 404
                          (failure "Username does not match the authenticated business account"),
                        logR)
                  else
                    match getBusinessAccountPosts upstream (accountId info)
                            (accessToken info) (JNum limit) logR with
                    | (Return posts, log') =>
                        (mkResponse 200
                           (JObj [("success", JBool true);
                                  ("username", resolved);
                                  ("account_type", JStr "business");
                                  ("profile", profile info);
                                  ("posts", posts)]), log')
                    | (Throw e, log') =>
                        (mkResponse 500 (failure (message e)), log')
                    end
              end
          end
      end
    end.
Proof.
  unfold business_handler. unfold_async.
  destruct (parseInt_or _ 25) as [limit|e]; [|reflexivity].
  destruct (negb (truthy (lookup (query req) "access_token")));
    [reflexivity|].
  destruct (getBusinessAccountInfo _ _ _) as [[info|e] logR]; [|reflexivity].
  destruct (get_prop (profile info) "username") as [resolved|e];
    [|reflexivity].
  destruct (call_toLowerCase resolved) as [lowered|e]; [|reflexivity].
  destruct (negb (String.eqb lowered _)); [reflexivity|].
  destruct (getBusinessAccountPosts _ _ _ _ _) as [[posts|e] log'];
    reflexivity.
Qed.

(** The resolution returns after exactly three calls, or fails after at
    most three calls with an [Error] whose message carries the prefix of
    [getBusinessAccountInfo]: no [TypeError] and no bare upstream error
    leaves it.  A failure follows at least one call when the caller's
    token converts to a string, and no call at all when it does not. *)
Theorem resolution_outcome (tok : JsVal) (log : Log) :
  exists calls,
    snd (getBusinessAccountInfo upstream tok log) = (log ++ calls)%list
    /\ match fst (getBusinessAccountInfo upstream tok log) with
       | Return _ => List.length calls = 3%nat
       | Throw e =>
           (List.length calls <= 3)%nat
           /\ (forall t, ToString tok = Return t ->
                         (1 <= List.length calls)%nat)
           /\ (forall error, ToString tok = Throw error -> calls = [])
           /\ exists reason,
               e = Error ("Failed to get business account info: " ++ reason)
       end.
Proof. exact (getBusinessAccountInfo_calls tok log). Qed.

(** When the first page has no truthy [instagram_business_account], the
    resolution fails with the no-business-account error after the second
    call: the profile is never asked for. *)
Theorem no_business_account_stops_resolution
        (tok : JsVal) (log : Log) (t id pt : string)
        (pagesData page pageId pageToken igAccountData igAccount : JsVal)
        (rest : list JsVal) :
  ToString tok = Return t ->
  upstream log ("https://graph.facebook.com/me/accounts?access_token=" ++ t)
  = Resolve pagesData ->
  get_prop pagesData "data" = Return (JArr (page :: rest)) ->
  get_prop page "id" = Return pageId ->
  get_prop page "access_token" = Return pageToken ->
  ToString pageId = Return id ->
  ToString pageToken = Return pt ->
  upstream
    (log ++ [AxiosGet ("https://graph.facebook.com/me/accounts?access_token="
                       ++ t)])%list
    ("https://graph.facebook.com/" ++ id
     ++ "?fields=instagram_business_account&access_token=" ++ pt)
  = Resolve igAccountData ->
  get_prop igAccountData "instagram_business_account" = Return igAccount ->
  truthy igAccount = false ->
  getBusinessAccountInfo upstream tok log
  = (Throw (Error "Failed to get business account info: No Instagram business account connected"),
     (log ++ [AxiosGet ("https://graph.facebook.com/me/accounts?access_token="
                        ++ t);
              AxiosGet ("https://graph.facebook.com/" ++ id
                        ++ "?fields=instagram_business_account&access_token="
                        ++ pt)])%list).
Proof.
  intros Htok Hpages Hdata Hid Htoken Hsid Hspt Hig Hacc Hfalsy.
  unfold getBusinessAccountInfo, pages_url, page_account_url, and_then.
  unfold_async.
  rewrite Htok. simpl in Hpages, Hig |- *. rewrite Hpages, Hdata. simpl.
  rewrite Hid, Htoken, Hsid, Hspt. simpl. rewrite Hig, Hacc, Hfalsy.
  simpl. rewrite <- app_assoc. reflexivity.
Qed.

(** A first page that carries neither [id] nor [access_token] is not
    refused: the second call goes out with both written as [undefined]. *)
Theorem page_without_token (tok : JsVal) (log : Log) (t : string)
        (pagesData page : JsVal) (rest : list JsVal) :
  ToString tok = Return t ->
  upstream log ("https://graph.facebook.com/me/accounts?access_token=" ++ t)
  = Resolve pagesData ->
  get_prop pagesData "data" = Return (JArr (page :: rest)) ->
  get_prop page "id" = Return JUndefined ->
  get_prop page "access_token" = Return JUndefined ->
  exists more,
    snd (getBusinessAccountInfo upstream tok log)
    = (log ++ AxiosGet ("https://graph.facebook.com/me/accounts?access_token="
                        ++ t)
           :: AxiosGet "https://graph.facebook.com/undefined?fields=instagram_business_account&access_token=undefined"
           :: more)%list.
Proof.
  intros Htok Hpages Hdata Hid Htoken.
  unfold getBusinessAccountInfo, pages_url, and_then. unfold_async.
  rewrite Htok. simpl in Hpages |- *. rewrite Hpages, Hdata. simpl.
  rewrite Hid, Htoken.
  change (page_account_url JUndefined JUndefined)
    with (@Return string "https://graph.facebook.com/undefined?fields=instagram_business_account&access_token=undefined").
  walk_resolution; eexists; reflexivity.
Qed.

(** The limit is parsed before the token is looked at.  When the limit
    parameter converts to a string, a request without an access token, or
    with an empty one, is answered 400 before anything is asked upstream;
    when it does not convert, the answer is 500 with the error's message,
    token or no token; and with a token the answer is never 400, whatever
    the username and the limit are. *)
Theorem access_token_required (req : Request) (log : Log) :
  (forall limit,
      parseInt_or (lookup (query req) "limit") 25 = Return limit ->
      truthy (lookup (query req) "access_token") = false ->
      business_handler upstream req log
      = (mkResponse 400
           (JObj [("success", JBool false);
                  ("error", JStr "Access token is required for business accounts")]),
         log))
  /\ (forall error,
         ToString (lookup (query req) "limit") = Throw error ->
         business_handler upstream req log
         = (mkResponse 500
              (JObj [("success", JBool false);
                     ("error", JStr (message error))]), log))
  /\ (truthy (lookup (query req) "access_token") = true ->
      status (fst (business_handler upstream req log)) <> 400%nat).
Proof.
  rewrite business_handler_tree. split; [|split].
  - intros limit -> ->. reflexivity.
  - intros error Herr. unfold parseInt_or, and_then. now rewrite Herr.
  - intros ->. destruct (parseInt_or _ 25) as [limit|e];
      [|simpl; discriminate].
    simpl.
    destruct (getBusinessAccountInfo _ _ _) as [[info|e] logR];
      [|simpl; discriminate].
    destruct (get_prop (profile info) "username") as [resolved|e];
      [|simpl; discriminate].
    destruct (call_toLowerCase resolved) as [lowered|e];
      [|simpl; discriminate].
    destruct (negb (String.eqb lowered _)); [simpl; discriminate|].
    destruct (getBusinessAccountPosts _ _ _ _ _) as [[posts|e] log'];
      simpl; discriminate.
Qed.

(** The business handler only appends to the call log, at most four
    calls; it answers 200, 400, 404 or 500, a 200 after exactly four calls,
    a 404 after exactly three and a 400 after none.  A 500 can follow any
    number of calls from none to four. *)
Theorem business_handler_call_budget (req : Request) (log : Log) :
  exists calls,
    snd (business_handler upstream req log) = (log ++ calls)%list
    /\ (List.length calls <= 4)%nat
    /\ ((status (fst (business_handler upstream req log)) = 200%nat
         /\ List.length calls = 4%nat)
        \/ (status (fst (business_handler upstream req log)) = 404%nat
            /\ List.length calls = 3%nat)
        \/ (status (fst (business_handler upstream req log)) = 400%nat
            /\ calls = [])
        \/ status (fst (business_handler upstream req log)) = 500%nat).
Proof.
  rewrite business_handler_tree.
  destruct (parseInt_or _ 25) as [limit|e].
  2:{ exists []. rewrite app_nil_r. simpl. intuition lia. }
  destruct (negb (truthy (lookup (query req) "access_token"))).
  { exists []. rewrite app_nil_r. simpl. intuition lia. }
  destruct (getBusinessAccountInfo_calls (lookup (query req) "access_token")
                                         log) as (calls & Hlog & Hres).
  destruct (getBusinessAccountInfo _ _ _) as [[info|e] logR];
    simpl in Hlog, Hres; subst logR.
  2:{ exists calls. simpl. intuition lia. }
  destruct (get_prop (profile info) "username") as [resolved|e].
  2:{ exists calls. simpl. intuition lia. }
  destruct (call_toLowerCase resolved) as [lowered|e].
  2:{ exists calls. simpl. intuition lia. }
  destruct (negb (String.eqb lowered _)).
  { exists calls. simpl. intuition lia. }
  match goal with
  | |- context [getBusinessAccountPosts ?u ?a ?t ?l ?g] =>
      pose proof (getBusinessAccountPosts_log u a t l g) as Hfetch;
      destruct (getBusinessAccountPosts u a t l g) as [[posts|e] log']
               eqn:Hposts
  end; simpl in Hfetch.
  - destruct (getBusinessAccountPosts_return _ _ _ _ _ _ Hposts) as [url ->].
    rewrite <- app_assoc. eexists. split; [reflexivity|].
    rewrite length_app, Hres. simpl. intuition lia.
  - subst log'. destruct (media_url _ _ _); rewrite <- ?app_assoc;
      eexists; (split; [reflexivity|]); rewrite ?length_app, Hres; simpl;
      intuition lia.
Qed.

(** When the upstream refuses the listing of the pages, the handler answers
    500 and its [error] is the resolution's prefix followed by the
    upstream's message as it came. *)
Theorem upstream_failure_echoed (req : Request) (log : Log) (limit : Z)
        (t reason : string) :
  parseInt_or (lookup (query req) "limit") 25 = Return limit ->
  truthy (lookup (query req) "access_token") = true ->
  ToString (lookup (query req) "access_token") = Return t ->
  upstream log ("https://graph.facebook.com/me/accounts?access_token=" ++ t)
  = Reject reason ->
  business_handler upstream req log
  = (mkResponse 500
       (JObj [("success", JBool false);
              ("error", JStr ("Failed to get business account info: "
                              ++ reason))]),
     (log ++ [AxiosGet ("https://graph.facebook.com/me/accounts?access_token="
                        ++ t)])%list).
Proof.
  intros Hlimit Htok Ht Hreject. rewrite business_handler_tree, Hlimit, Htok.
  simpl negb. cbv iota.
  unfold getBusinessAccountInfo, pages_url, and_then. unfold_async.
  rewrite Ht. simpl in Hreject |- *. rewrite Hreject. reflexivity.
Qed.

(** A resolved profile whose [username] is not a string (missing, for
    one) makes the gate itself fail: the answer is 500 with the engine's
    [TypeError] message, not 404, and no post is fetched. *)
Theorem unusable_profile_username (req : Request) (log logR : Log)
        (info : AccountInfo) (v : JsVal) (limit : Z) :
  parseInt_or (lookup (query req) "limit") 25 = Return limit ->
  truthy (lookup (query req) "access_token") = true ->
  getBusinessAccountInfo upstream (lookup (query req) "access_token") log
  = (Return info, logR) ->
  get_prop (profile info) "username" = Return v ->
  (forall s, v <> JStr s) ->
  business_handler upstream req log
  = (mkResponse 500
       (JObj [("success", JBool false);
              ("error", JStr (typeErrorMessage v "toLowerCase"))]),
     logR).
Proof.
  intros Hlimit Htok Hres Huser Hkind.
  rewrite business_handler_tree, Hlimit, Htok, Hres, Huser. simpl.
  destruct v; try reflexivity. now destruct (Hkind s).
Qed.

(** When the media listing is refused after the gate is passed, the answer
    is 500 and its [error] is the post fetch's prefix followed by the
    upstream's message; the profile already resolved is not returned. *)
Theorem post_fetch_failure (req : Request) (log logR : Log)
        (info : AccountInfo) (limit : Z) (resolved id t reason : string) :
  parseInt_or (lookup (query req) "limit") 25 = Return limit ->
  truthy (lookup (query req) "access_token") = true ->
  getBusinessAccountInfo upstream (lookup (query req) "access_token") log
  = (Return info, logR) ->
  get_prop (profile info) "username" = Return (JStr resolved) ->
  toLowerCase resolved = toLowerCase (username req) ->
  ToString (accountId info) = Return id ->
  ToString (accessToken info) = Return t ->
  upstream logR
    ("https://graph.instagram.com/" ++ id
     ++ "/media?fields=id,caption,media_url,media_type,timestamp,like_count,comments_count,permalink&limit="
     ++ Number_toString limit ++ "&access_token=" ++ t)
  = Reject reason ->
  business_handler upstream req log
  = (mkResponse 500
       (JObj [("success", JBool false);
              ("error", JStr ("Failed to get business posts: " ++ reason))]),
     (logR ++ [AxiosGet
                 ("https://graph.instagram.com/" ++ id
                  ++ "/media?fields=id,caption,media_url,media_type,timestamp,like_count,comments_count,permalink&limit="
                  ++ Number_toString limit ++ "&access_token=" ++ t)])%list).
Proof.
  intros Hlimit Htok Hres Huser Hsame Hid Ht Hreject.
  rewrite (business_handler_gate_passed _ _ _ _ _ _ _ Hlimit Htok Hres Huser
                                        Hsame).
  unfold getBusinessAccountPosts. unfold_async.
  change (default_limit (JNum limit)) with (JNum limit).
  rewrite (media_url_text _ _ (JNum limit) id t (Number_toString limit)
                          Hid Ht eq_refl).
  simpl in Hreject |- *. rewrite Hreject. reflexivity.
Qed.

(** The [posts] of a 200 answer are the [data] property of the media
    answer as it is, array or not; when the property is missing they are
    [undefined]. *)
Theorem posts_taken_unchecked (req : Request) (log logR : Log)
        (info : AccountInfo) (limit : Z) (resolved id t : string)
        (mediaData v : JsVal) :
  parseInt_or (lookup (query req) "limit") 25 = Return limit ->
  truthy (lookup (query req) "access_token") = true ->
  getBusinessAccountInfo upstream (lookup (query req) "access_token") log
  = (Return info, logR) ->
  get_prop (profile info) "username" = Return (JStr resolved) ->
  toLowerCase resolved = toLowerCase (username req) ->
  ToString (accountId info) = Return id ->
  ToString (accessToken info) = Return t ->
  upstream logR
    ("https://graph.instagram.com/" ++ id
     ++ "/media?fields=id,caption,media_url,media_type,timestamp,like_count,comments_count,permalink&limit="
     ++ Number_toString limit ++ "&access_token=" ++ t)
  = Resolve mediaData ->
  get_prop mediaData "data" = Return v ->
  fst (business_handler upstream req log)
  = mkResponse 200
      (JObj [("success", JBool true);
             ("username", JStr resolved);
             ("account_type", JStr "business");
             ("profile", profile info);
             ("posts", v)]).
Proof.
  intros Hlimit Htok Hres Huser Hsame Hid Ht Hmedia Hdata.
  rewrite (business_handler_gate_passed _ _ _ _ _ _ _ Hlimit Htok Hres Huser
                                        Hsame).
  unfold getBusinessAccountPosts. unfold_async.
  change (default_limit (JNum limit)) with (JNum limit).
  rewrite (media_url_text _ _ (JNum limit) id t (Number_toString limit)
                          Hid Ht eq_refl).
  simpl in Hmedia |- *. rewrite Hmedia, Hdata. reflexivity.
Qed.

(** A limit written as a non-zero integer in decimal goes into the media
    URL as it is written: negative or beyond 100, it is neither refused nor
    clamped. *)
Theorem limit_forwarded_unchecked (req : Request) (log logR : Log)
        (info : AccountInfo) (resolved : string) (n : Z) :
  n <> 0 ->
  Z.abs n <= max_safe_integer ->
  lookup (query req) "limit" = JStr (NilZero.string_of_int (Z.to_int n)) ->
  truthy (lookup (query req) "access_token") = true ->
  getBusinessAccountInfo upstream (lookup (query req) "access_token") log
  = (Return info, logR) ->
  get_prop (profile info) "username" = Return (JStr resolved) ->
  toLowerCase resolved = toLowerCase (username req) ->
  exists id t,
    ToString (accountId info) = Return id
    /\ ToString (accessToken info) = Return t
    /\ snd (business_handler upstream req log)
       = (logR ++ [AxiosGet
                     ("https://graph.instagram.com/" ++ id
                      ++ "/media?fields=id,caption,media_url,media_type,timestamp,like_count,comments_count,permalink&limit="
                      ++ NilZero.string_of_int (Z.to_int n)
                      ++ "&access_token=" ++ t)])%list.
Proof.
  intros Hnz Hsafe Hlimit Htok Hres Huser Hsame.
  assert (Hn : parseInt_or (lookup (query req) "limit") 25 = Return n).
  { unfold parseInt_or. rewrite Hlimit. simpl.
    rewrite parseInt_decimal. now replace (n =? 0) with false by lia. }
  destruct (business_handler_media_call _ _ _ _ _ _ _ Hn Htok Hres Huser
                                        Hsame) as (id & t & Hid & Ht & Hcall).
  exists id, t. split; [exact Hid|]. split; [exact Ht|].
  rewrite Hcall. unfold Number_toString.
  now replace (Z.abs n <=? max_safe_integer) with true by lia.
Qed.

(** The token exchange, written as the decision tree it is. *)
Lemma token_handler_tree (req : Request) (log : Log) :
  token_handler upstream req log
  = match get_prop (reqBody req) "code", get_prop (reqBody req) "app_id",
          get_prop (reqBody req) "app_secret",
          get_prop (reqBody req) "redirect_uri" with
    | Return code, Return app_id, Return app_secret, Return redirect_uri =>
        if negb (truthy code) || negb (truthy app_id)
           || negb (truthy app_secret) || negb (truthy redirect_uri)
        then (mkResponse 400
                (failure "code, app_id, app_secret, and redirect_uri are required"),
              log)
        else
          match token_url code app_id app_secret redirect_uri with
          | Throw _ =>
              (mkResponse 500 (failure "Failed to exchange code for token"),
               log)
          | Return url =>
              match upstream log url with
              | Reject _ =>
                  (mkResponse 500 (failure "Failed to exchange code for token"),
                   (log ++ [AxiosGet url])%list)
              | Resolve tokenData =>
                  (match get_prop tokenData "access_token",
                         get_prop tokenData "token_type",
                         get_prop tokenData "expires_in" with
                   | Return access_token, Return token_type,
                     Return expires_in =>
                       mkResponse 200
                         (JObj [("success", JBool true);
                                ("access_token", access_token);
                                ("token_type", token_type);
                                ("expires_in", expires_in)])
                   | _, _, _ =>
                       mkResponse 500
                         (failure "Failed to exchange code for token")
                   end,
                   (log ++ [AxiosGet url])%list)
              end
          end
    | _, _, _, _ =>
        (mkResponse 500 (failure "Failed to exchange code for token"), log)
    end.
Proof.
  unfold token_handler. unfold_async.
  destruct (get_prop (reqBody req) "code") as [code|]; [|reflexivity].
  destruct (get_prop (reqBody req) "app_id") as [app_id|]; [|reflexivity].
  destruct (get_prop (reqBody req) "app_secret") as [app_secret|];
    [|reflexivity].
  destruct (get_prop (reqBody req) "redirect_uri") as [redirect_uri|];
    [|reflexivity].
  destruct (negb (truthy code) || negb (truthy app_id)
            || negb (truthy app_secret) || negb (truthy redirect_uri));
    [reflexivity|].
  destruct (token_url _ _ _ _) as [url|]; [|reflexivity].
  destruct (upstream log url) as [tokenData|]; [|reflexivity].
  destruct (get_prop tokenData "access_token"); [|reflexivity].
  destruct (get_prop tokenData "token_type"); [|reflexivity].
  destruct (get_prop tokenData "expires_in"); reflexivity.
Qed.

(** With the four fields given as values that are not empty and convert
    to text, the redirect URI having no lone surrogate, the exchange makes
    one call, to the Graph API's token endpoint with [redirect_uri]
    percent-encoded and the other three fields as they are, and a JSON
    object in answer yields 200 with its [access_token], [token_type] and
    [expires_in]. *)
Theorem token_exchange_success (req : Request) (log : Log)
        (code app_id app_secret redirect_uri : JsVal)
        (grant client secret redirect encoded : string)
        (fields : list (string * JsVal)) :
  get_prop (reqBody req) "code" = Return code ->
  get_prop (reqBody req) "app_id" = Return app_id ->
  get_prop (reqBody req) "app_secret" = Return app_secret ->
  get_prop (reqBody req) "redirect_uri" = Return redirect_uri ->
  truthy code = true -> truthy app_id = true ->
  truthy app_secret = true -> truthy redirect_uri = true ->
  ToString code = Return grant ->
  ToString app_id = Return client ->
  ToString app_secret = Return secret ->
  ToString redirect_uri = Return redirect ->
  uri_encode redirect = Some encoded ->
  upstream log
    ("https://graph.facebook.com/v18.0/oauth/access_token?client_id="
     ++ client ++ "&redirect_uri=" ++ encoded
     ++ "&client_secret=" ++ secret ++ "&code=" ++ grant)
  = Resolve (JObj fields) ->
  token_handler upstream req log
  = (mkResponse 200
       (JObj [("success", JBool true);
              ("access_token", lookup fields "access_token");
              ("token_type", lookup fields "token_type");
              ("expires_in", lookup fields "expires_in")]),
     (log ++ [AxiosGet
                ("https://graph.facebook.com/v18.0/oauth/access_token?client_id="
                 ++ client ++ "&redirect_uri=" ++ encoded
                 ++ "&client_secret=" ++ secret ++ "&code=" ++ grant)])%list).
Proof.
  intros Hcode Happ Hsecret Huri Tcode Tapp Tsecret Turi
         Sgrant Sclient Ssecret Sredirect Henc Hup.
  rewrite token_handler_tree, Hcode, Happ, Hsecret, Huri.
  rewrite Tcode, Tapp, Tsecret, Turi. simpl.
  unfold token_url, encodeURIComponent, and_then.
  rewrite Sclient, Sredirect, Henc, Ssecret, Sgrant.
  simpl in Hup |- *. rewrite Hup. reflexivity.
Qed.

(** Whatever goes wrong in the exchange, the answer is 500 with one fixed
    message: the upstream's own message is not passed on, and at most one
    call was made.  Every answer of the handler is a 200, a 400 given
    before any call, or that 500. *)
Theorem token_handler_outcome (req : Request) (log : Log) :
  (status (fst (token_handler upstream req log)) = 200%nat
   /\ exists url, snd (token_handler upstream req log)
                  = (log ++ [AxiosGet url])%list)
  \/ token_handler upstream req log
     = (mkResponse 400
          (JObj [("success", JBool false);
                 ("error", JStr "code, app_id, app_secret, and redirect_uri are required")]),
        log)
  \/ (fst (token_handler upstream req log)
      = mkResponse 500
          (JObj [("success", JBool false);
                 ("error", JStr "Failed to exchange code for token")])
      /\ (snd (token_handler upstream req log) = log
          \/ exists url, snd (token_handler upstream req log)
                         = (log ++ [AxiosGet url])%list)).
Proof.
  rewrite token_handler_tree.
  destruct (get_prop (reqBody req) "code") as [code|]; [|auto].
  destruct (get_prop (reqBody req) "app_id") as [app_id|]; [|auto].
  destruct (get_prop (reqBody req) "app_secret") as [app_secret|]; [|auto].
  destruct (get_prop (reqBody req) "redirect_uri") as [redirect_uri|];
    [|auto].
  destruct (negb (truthy code) || negb (truthy app_id)
            || negb (truthy app_secret) || negb (truthy redirect_uri));
    [auto|].
  destruct (token_url _ _ _ _) as [url|]; [|auto].
  destruct (upstream log url) as [tokenData|]; [|simpl; eauto 6].
  destruct (get_prop tokenData "access_token"); [|simpl; eauto 6].
  destruct (get_prop tokenData "token_type"); [|simpl; eauto 6].
  destruct (get_prop tokenData "expires_in"); simpl; eauto 6.
Qed.

(** The scraper's fallback never returns a profile: it throws the same
    error whatever happens, after its one call, answered or refused, when
    the username converts to a string, and without a call when it does
    not. *)
Theorem public_fallback_always_fails (name : JsVal) (log : Log) :
  fst (getPublicProfileFallback upstream name log)
  = Throw (Error "Unable to access public profile. Instagram has restricted public access.")
  /\ (forall s,
         ToString name = Return s ->
         snd (getPublicProfileFallback upstream name log)
         = (log ++ [AxiosGet ("https://www.instagram.com/p/" ++ s
                              ++ "/embed/")])%list)
  /\ (forall error,
         ToString name = Throw error ->
         snd (getPublicProfileFallback upstream name log) = log).
Proof.
  unfold getPublicProfileFallback, embed_url, and_then. unfold_async.
  destruct (ToString name) as [s|error]; simpl.
  - destruct (upstream log _); simpl;
      (split; [reflexivity|]); (split; [now intros ? [= <-]|discriminate]).
  - split; [reflexivity|]. split; [discriminate|reflexivity].
Qed.

End GraphBehaviour.

(** ** Behaviour of the mock variant *)

Section MockBehaviour.

Context {engine : Engine}.

(** What the [catch] of the mock handler answers. *)
Lemma mock_handler_tree (req : Request) (log : Log) :
  Mock.handler req log
  = match parseInt_or (lookup (query req) "limit") 12 with
    | Throw error =>
        (if String.eqb (message error) "User not found"
         then mkResponse 404 (failure "User not found")
         else mkResponse 500 (failure "Internal server error"), log)
    | Return limit =>
    if negb (username_regex_test (username req))
    then (mkResponse 400 (failure "Invalid username format"), log)
    else if (limit <? 1) || (limit >? 50)
    then (mkResponse 400 (failure "Limit must be between 1 and 50"), log)
    else
      match Mock.fetchInstagramData (username req) limit log with
      | (Return data, log') =>
          (mkResponse 200
             (JObj [("success", JBool true);
                    ("username", JStr (username req));
                    ("profile", fst data);
                    ("posts", snd data)]), log')
      | (Throw error, log') =>
          (if String.eqb (message error) "User not found"
           then mkResponse 404 (failure "User not found")
           else mkResponse 500 (failure "Internal server error"), log')
      end
    end.
Proof.
  unfold Mock.handler. unfold_async.
  destruct (parseInt_or _ 12) as [limit|error]; [|reflexivity].
  destruct (username req) as [|c s] eqn:Hname; [reflexivity|].
  change (truthy (JStr (String c s))) with true. simpl negb at 1.
  rewrite orb_false_l.
  destruct (negb (username_regex_test (String c s))); [reflexivity|].
  destruct (_ || _); [reflexivity|].
  destruct (Mock.fetchInstagramData _ _ _) as [[data|error] log'];
    reflexivity.
Qed.

(** The lookup logs its one call, found or not. *)
Lemma fetchInstagramData_log (name : string) (limit : Z) (log : Log) :
  snd (Mock.fetchInstagramData name limit log)
  = (log ++ [FetchInstagramData name limit])%list.
Proof.
  unfold Mock.fetchInstagramData.
  destruct (Mock.mockUserData _) as [userData| |]; try reflexivity.
  destruct (get_prop userData "profile") as [profile|];
    destruct (get_prop userData "posts") as [[]|]; reflexivity.
Qed.

(** The limit is parsed first, then the username and the limit are
    validated, then the data is fetched, at most once.  When the limit
    parameter cannot be converted to a string nothing is fetched and the
    [catch] answers; otherwise a request with a well-formed username and a
    limit between 1 and 50 logs exactly one fetch, for the username as
    typed, and every other request is answered 400 and logs nothing. *)
Theorem mock_fetch_iff_valid (req : Request) (log : Log) :
  match parseInt_or (lookup (query req) "limit") 12 with
  | Throw error =>
      Mock.handler req log
      = (if String.eqb (message error) "User not found"
         then mkResponse 404
                (JObj [("success", JBool false);
                       ("error", JStr "User not found")])
         else mkResponse 500
                (JObj [("success", JBool false);
                       ("error", JStr "Internal server error")]), log)
  | Return limit =>
      if username_regex_test (username req) && (1 <=? limit) && (limit <=? 50)
      then snd (Mock.handler req log)
           = (log ++ [FetchInstagramData (username req) limit])%list
      else status (fst (Mock.handler req log)) = 400%nat
           /\ snd (Mock.handler req log) = log
  end.
Proof.
  rewrite mock_handler_tree.
  destruct (parseInt_or _ 12) as [limit|error]; [|reflexivity].
  destruct (username_regex_test (username req)); simpl; [|auto].
  destruct (1 <=? limit) eqn:Hlo; simpl.
  2:{ replace (limit <? 1) with true by lia. auto. }
  destruct (limit <=? 50) eqn:Hhi.
  2:{ replace (limit >? 50) with true by lia. rewrite orb_true_r. auto. }
  replace (limit <? 1) with false by lia.
  replace (limit >? 50) with false by lia. simpl.
  pose proof (fetchInstagramData_log (username req) limit log) as Hfetch.
  destruct (Mock.fetchInstagramData _ _ _) as [[data|error] log'];
    exact Hfetch.
Qed.

(** For a well-formed username, a limit that parses to a negative number
    or to more than 50 is answered 400 with the limit message, nothing
    being fetched; a limit that parses to zero or to no number is not
    refused: it stands for the default, and the data is fetched with
    limit 12. *)
Theorem mock_limit_out_of_range (req : Request) (log : Log) (s : string) :
  username_regex_test (username req) = true ->
  ToString (lookup (query req) "limit") = Return s ->
  (forall n,
      ParseInt.parseInt s = Some n -> n < 0 \/ 50 < n ->
      Mock.handler req log
      = (mkResponse 400
           (JObj [("success", JBool false);
                  ("error", JStr "Limit must be between 1 and 50")]), log))
  /\ (ParseInt.parseInt s = Some 0 \/ ParseInt.parseInt s = None ->
      snd (Mock.handler req log)
      = (log ++ [FetchInstagramData (username req) 12])%list).
Proof.
  intros Hname Hs. rewrite mock_handler_tree, Hname.
  unfold parseInt_or, and_then. rewrite Hs. simpl. split.
  - intros n Hparse Hrange. rewrite Hparse.
    replace (n =? 0) with false by lia.
    destruct Hrange.
    + replace (n <? 1) with true by lia. reflexivity.
    + replace (n >? 50) with true by lia. rewrite orb_true_r. reflexivity.
  - intros Hparse.
    assert (Hlimit : match ParseInt.parseInt s with
                     | Some n => if n =? 0 then 12 else n
                     | None => 12
                     end = 12) by (destruct Hparse as [-> | ->]; reflexivity).
    rewrite Hlimit. simpl.
    pose proof (fetchInstagramData_log (username req) 12 log) as Hfetch.
    destruct (Mock.fetchInstagramData _ _ _) as [[data|error] log'];
      exact Hfetch.
Qed.

(** With a limit between 1 and 50, a well-formed username that lower-cases
    neither to the mock user's name nor to a name that every object
    inherits is answered 404 after the one fetch. *)
Theorem mock_unknown_user (req : Request) (log : Log) (limit : Z) :
  parseInt_or (lookup (query req) "limit") 12 = Return limit ->
  username_regex_test (username req) = true ->
  1 <= limit <= 50 ->
  toLowerCase (username req) <> "johndoe" ->
  toLowerCase (username req) <> "constructor" ->
  toLowerCase (username req) <> "__proto__" ->
  Mock.handler req log
  = (mkResponse 404
       (JObj [("success", JBool false); ("error", JStr "User not found")]),
     (log ++ [FetchInstagramData (username req) limit])%list).
Proof.
  intros Hparse Hname Hlimit H1 H2 H3.
  rewrite mock_handler_tree, Hparse, Hname. simpl.
  replace (limit <? 1) with false by lia.
  replace (limit >? 50) with false by lia. simpl.
  unfold Mock.fetchInstagramData, Mock.mockUserData.
  apply String.eqb_neq in H1, H2, H3. rewrite H1, H2, H3. reflexivity.
Qed.

(** With a limit between 1 and 50, a well-formed username that lower-cases
    to [constructor] or [__proto__] finds a member every object inherits
    instead of user data; reading its posts fails, and the answer is 500,
    not 404. *)
Theorem mock_inherited_key (req : Request) (log : Log) (limit : Z) :
  parseInt_or (lookup (query req) "limit") 12 = Return limit ->
  username_regex_test (username req) = true ->
  1 <= limit <= 50 ->
  toLowerCase (username req) = "constructor"
  \/ toLowerCase (username req) = "__proto__" ->
  typeErrorMessage JUndefined "slice" <> "User not found" ->
  Mock.handler req log
  = (mkResponse 500
       (JObj [("success", JBool false);
              ("error", JStr "Internal server error")]),
     (log ++ [FetchInstagramData (username req) limit])%list).
Proof.
  intros Hparse Hname Hlimit Hkey Hmsg.
  rewrite mock_handler_tree, Hparse, Hname. simpl.
  replace (limit <? 1) with false by lia.
  replace (limit >? 50) with false by lia. simpl.
  unfold Mock.fetchInstagramData, Mock.mockUserData.
  apply String.eqb_neq in Hmsg.
  destruct Hkey as [-> | ->]; simpl; rewrite Hmsg; reflexivity.
Qed.

(** For the mock user, found whatever the case of the letters typed, the
    answer is 200 with the username as typed, the stored profile and the
    first [limit] of the three stored posts, in their order. *)
Theorem mock_user_posts (req : Request) (log : Log) (limit : Z) :
  parseInt_or (lookup (query req) "limit") 12 = Return limit ->
  username_regex_test (username req) = true ->
  1 <= limit <= 50 ->
  toLowerCase (username req) = "johndoe" ->
  exists profile stored,
    get_prop Mock.johndoe "profile" = Return profile
    /\ get_prop Mock.johndoe "posts" = Return (JArr stored)
    /\ List.length stored = 3%nat
    /\ Mock.handler req log
       = (mkResponse 200
            (JObj [("success", JBool true);
                   ("username", JStr (username req));
                   ("profile", profile);
                   ("posts", JArr (firstn (Z.to_nat limit) stored))]),
          (log ++ [FetchInstagramData (username req) limit])%list).
Proof.
  intros Hparse Hname Hlimit Hkey.
  eexists. eexists. split; [reflexivity|]. split; [reflexivity|].
  split; [reflexivity|].
  rewrite mock_handler_tree, Hparse, Hname. simpl.
  replace (limit <? 1) with false by lia.
  replace (limit >? 50) with false by lia. simpl.
  unfold Mock.fetchInstagramData, Mock.mockUserData. rewrite Hkey. simpl.
  unfold Mock.slice0. replace (limit <? 0) with false by lia. reflexivity.
Qed.

(** Every 200 answer of the mock variant carries an array of posts that has
    at most three elements and at most as many as the limit, which lies
    between 1 and 50. *)
Theorem mock_posts_bounded (req : Request) (log : Log) :
  status (fst (Mock.handler req log)) = 200%nat ->
  exists limit fields posts,
    parseInt_or (lookup (query req) "limit") 12 = Return limit
    /\ body (fst (Mock.handler req log)) = JObj fields
    /\ lookup fields "posts" = JArr posts
    /\ (List.length posts <= 3)%nat
    /\ Z.of_nat (List.length posts) <= limit <= 50
    /\ 1 <= limit.
Proof.
  rewrite mock_handler_tree.
  destruct (parseInt_or _ 12) as [limit|error].
  2:{ simpl. destruct (String.eqb _ _); discriminate. }
  destruct (negb (username_regex_test (username req))); [discriminate|].
  destruct ((limit <? 1) || (limit >? 50)) eqn:Hrange; [discriminate|].
  assert (Hlimit : 1 <= limit <= 50) by lia.
  unfold Mock.fetchInstagramData, Mock.mockUserData.
  destruct (String.eqb (toLowerCase (username req)) "johndoe").
  - simpl. intros _. exists limit. eexists. eexists.
    split; [reflexivity|]. split; [reflexivity|].
    split; [reflexivity|]. unfold Mock.slice0.
    replace (limit <? 0) with false by lia.
    rewrite length_firstn. simpl List.length. lia.
  - destruct (String.eqb _ "constructor" || String.eqb _ "__proto__"); simpl.
    + destruct (String.eqb _ "User not found"); discriminate.
    + discriminate.
Qed.

End MockBehaviour.

(** ** The percent-encoding *)

Section Encoding.

Context {engine : Engine}.

Lemma hex_digit_value (n : N) :
  (n < 16)%N -> ParseInt.digit_value 16 (hex_digit n) = Some (Z.of_N n).
Proof.
  intros H.
  assert (Hcases : In n [0; 1; 2; 3; 4; 5; 6; 7; 8; 9; 10; 11; 12; 13; 14; 15]%N).
  { simpl. lia. }
  simpl in Hcases.
  repeat (destruct Hcases as [<- | Hcases]; [reflexivity|]).
  destruct Hcases.
Qed.

Lemma percent_encode_injective (c d : ascii) :
  percent_encode c = percent_encode d -> c = d.
Proof.
  unfold percent_encode. intros [= Hhi Hlo].
  assert (Hc : (Chars.code c < 256)%N) by apply N_ascii_bounded.
  assert (Hd : (Chars.code d < 256)%N) by apply N_ascii_bounded.
  apply (f_equal (ParseInt.digit_value 16)) in Hhi, Hlo.
  rewrite !hex_digit_value in Hhi, Hlo
    by (try apply N.mod_lt; try apply N.Div0.div_lt_upper_bound; lia).
  injection Hhi as Hhi. injection Hlo as Hlo.
  apply N2Z.inj in Hhi, Hlo.
  assert (Hcode : Chars.code c = Chars.code d).
  { rewrite (N.div_mod (Chars.code c) 16), (N.div_mod (Chars.code d) 16)
      by lia. now rewrite Hhi, Hlo. }
  unfold Chars.code in Hcode.
  now rewrite <- (ascii_N_embedding c), <- (ascii_N_embedding d), Hcode.
Qed.

(** The percent-encoding never maps two strings to the same text. *)
Lemma uri_encode_injective (s t encoded : string) :
  uri_encode s = Some encoded -> uri_encode t = Some encoded -> s = t.
Proof.
  revert t encoded.
  induction s as [|c s IH]; intros [|d t] encoded; simpl.
  - reflexivity.
  - intros [= <-]. destruct (lone_surrogate d t); [discriminate|].
    destruct (uri_encode t); [|discriminate].
    destruct (uri_unreserved d); discriminate.
  - destruct (lone_surrogate c s); [discriminate|].
    destruct (uri_encode s); [|discriminate].
    intros [= <-]. destruct (uri_unreserved c); discriminate.
  - destruct (lone_surrogate c s); [discriminate|].
    destruct (uri_encode s) as [es|] eqn:Hs; [|discriminate].
    destruct (lone_surrogate d t); [intros _; discriminate|].
    destruct (uri_encode t) as [et|] eqn:Ht; [|intros _; discriminate].
    intros [= <-].
    destruct (uri_unreserved c) eqn:Hc, (uri_unreserved d) eqn:Hd; simpl.
    + intros [= -> H]. f_equal. subst et. now apply (IH t es).
    + intros [= Hd' _]. subst c. discriminate Hc.
    + intros [= Hc' _]. subst d. discriminate Hd.
    + intros [= Hhi Hlo H].
      assert (d = c) as ->
          by (apply percent_encode_injective; unfold percent_encode;
              now rewrite Hhi, Hlo).
      f_equal. subst et. now apply (IH t es).
Qed.

Lemma length_append (s t : string) :
  String.length (s ++ t) = (String.length s + String.length t)%nat.
Proof. induction s as [|c s IH]; simpl; [reflexivity|now rewrite IH]. Qed.

Lemma append_cancel_l (s t u : string) : s ++ t = s ++ u -> t = u.
Proof. induction s as [|c s IH]; simpl; [auto|]. intros [= H]. auto. Qed.

Lemma append_cancel_r (s t u : string) : t ++ s = u ++ s -> t = u.
Proof.
  revert u. induction t as [|c t IH]; intros [|d u]; simpl.
  - reflexivity.
  - intros H. apply (f_equal String.length) in H. simpl in H.
    rewrite length_append in H. lia.
  - intros H. apply (f_equal String.length) in H. simpl in H.
    rewrite length_append in H. lia.
  - intros [= -> H]. f_equal. now apply IH.
Qed.

(** For one [app_id], two redirect URIs give the same authorization URL
    only if they are the same text: the encoding loses nothing. *)
Theorem oauth_url_tells_redirects_apart (app_id r1 r2 : JsVal) (url : string) :
  oauth_url app_id r1 = Return url ->
  oauth_url app_id r2 = Return url ->
  exists redirect,
    ToString r1 = Return redirect /\ ToString r2 = Return redirect.
Proof.
  unfold oauth_url, encodeURIComponent, and_then.
  destruct (ToString app_id) as [client|]; [|discriminate].
  destruct (ToString r1) as [s1|]; [|discriminate].
  destruct (uri_encode s1) as [e1|] eqn:H1; [|discriminate].
  destruct (ToString r2) as [s2|]; [|discriminate].
  destruct (uri_encode s2) as [e2|] eqn:H2; [|discriminate].
  intros [= <-] [= H].
  apply append_cancel_l in H. injection H as H.
  apply append_cancel_r in H. subst e2.
  rewrite (uri_encode_injective _ _ _ H2 H1). eauto.
Qed.

(** The encoding holds none of the characters that delimit a URL or its
    query: whatever the redirect URI is, it cannot end its parameter or
    start another one. *)
Theorem encodeURIComponent_no_delimiter (v : JsVal) (encoded : string) :
  encodeURIComponent v = Return encoded ->
  Chars.forallb
    (fun c => negb (existsb (Ascii.eqb c)
                            ["&"; "="; "?"; "#"; "/"; ":"; "+"; " "; ";"]%char))
    encoded = true.
Proof.
  unfold encodeURIComponent, and_then.
  destruct (ToString v) as [s|]; [|discriminate].
  destruct (uri_encode s) as [e|] eqn:He; [|discriminate].
  intros [= <-]. revert e He.
  induction s as [|c s IH]; intros e; cbn [uri_encode].
  - now intros [= <-].
  - destruct (lone_surrogate c s); [discriminate|].
    destruct (uri_encode s) as [es|]; [|discriminate].
    intros [= <-]. rewrite forallb_append, (IH es eq_refl), andb_true_r.
    destruct c as [[] [] [] [] [] [] [] []]; reflexivity.
Qed.

End Encoding.

(** ** The scenario, run *)

Import Scenario.

(** C3. A limit of 500 is not rejected by the business endpoint: the
    request is answered 200 and the media call asks upstream for
    [limit=500]. *)
Theorem business_limit_500_forwarded :
  business_handler Scenario.upstream
    (Scenario.get_request "acct" [token; ("limit", JStr "500")]) []
  = (mkResponse 200
       (JObj [("success", JBool true);
              ("username", JStr "acct");
              ("account_type", JStr "business");
              ("profile", Scenario.acct_profile);
              ("posts", JArr Scenario.acct_media)]),
     (resolution_log
      ++ [AxiosGet "https://graph.instagram.com/ig1/media?fields=id,caption,media_url,media_type,timestamp,like_count,comments_count,permalink&limit=500&access_token=pt1"])%list).
Proof. vm_compute. reflexivity. Qed.

(** The path username [other] against the account [acct]. *)
Lemma business_username_gate_witness :
  business_handler Scenario.upstream (Scenario.get_request "other" [token]) []
  = (mkResponse 404
       (JObj [("success", JBool false);
              ("error", JStr "Username does not match the authenticated business account")]),
     resolution_log).
Proof.
  apply (proj1 (business_username_gate Scenario.upstream
                  (Scenario.get_request "other" [token]) [])
               resolved_info resolution_log "acct" 25).
  - reflexivity.
  - reflexivity.
  - vm_compute. reflexivity.
  - reflexivity.
  - vm_compute. discriminate.
Defined.

(** A username with an exclamation mark passes through the business
    endpoint to the upstream: three calls are made before the answer. *)
Lemma business_endpoint_skips_username_pattern :
  username_regex_test "bad!name" = false
  /\ business_handler Scenario.upstream
       (Scenario.get_request "bad!name" [token]) []
     = (mkResponse 404
          (JObj [("success", JBool false);
                 ("error", JStr "Username does not match the authenticated business account")]),
        resolution_log).
Proof. split; vm_compute; reflexivity. Qed.

Lemma username_pattern_checked_by_mock_variant_witness :
  username_regex_test "bad!name" = false
  /\ Mock.handler (Scenario.get_request "bad!name" []) []
     = (mkResponse 400
          (JObj [("success", JBool false);
                 ("error", JStr "Invalid username format")]), [])
  /\ Mock.handler (Scenario.get_request "bad!name" [("limit", unconvertible)])
                  []
     = (mkResponse 500
          (JObj [("success", JBool false);
                 ("error", JStr "Internal server error")]), [])
  /\ exists rest,
      snd (business_handler Scenario.upstream
             (Scenario.get_request "bad!name" [token]) [])
      = ([] ++ AxiosGet "https://graph.facebook.com/me/accounts?access_token=tok1"
            :: rest)%list.
Proof.
  split; [reflexivity|].
  destruct (proj1 (username_pattern_checked_by_mock_variant Scenario.upstream)
                  (Scenario.get_request "bad!name" []) [] eq_refl)
    as (Hlog & Hplain & _).
  destruct (proj1 (username_pattern_checked_by_mock_variant Scenario.upstream)
                  (Scenario.get_request "bad!name" [("limit", unconvertible)])
                  [] eq_refl)
    as (Hlog' & _ & Hthrow).
  split; [|split].
  - rewrite (surjective_pairing (Mock.handler _ _)), Hlog.
    now rewrite (Hplain "undefined" eq_refl).
  - rewrite (surjective_pairing (Mock.handler _ _)), Hlog'.
    now rewrite (Hthrow _ eq_refl).
  - apply (proj2 (username_pattern_checked_by_mock_variant Scenario.upstream)
                 (Scenario.get_request "bad!name" [token]) [] "tok1"
                 "undefined"); reflexivity.
Defined.

(** The credential [tok0] has no page. *)
Lemma no_linked_pages_stops_resolution_witness :
  getBusinessAccountInfo Scenario.upstream (JStr "tok0") []
  = (Throw (Error "Failed to get business account info: No Facebook pages found"),
     [AxiosGet "https://graph.facebook.com/me/accounts?access_token=tok0"]).
Proof.
  apply (no_linked_pages_stops_resolution Scenario.upstream (JStr "tok0") []
           "tok0" (JObj [("data", JArr [])]) (JArr [])).
  - reflexivity.
  - reflexivity.
  - reflexivity.
  - right. right. reflexivity.
Defined.

(** The credential [tok1] has two pages; the first one, [p1] with token
    [pt1], is the one used. *)
Lemma page_token_used_downstream_witness :
  exists pagesData pages page pageId caller id account pageToken,
    ToString (JStr "tok1") = Return caller
    /\ Scenario.upstream []
         ("https://graph.facebook.com/me/accounts?access_token=" ++ caller)
       = Resolve pagesData
    /\ get_prop pagesData "data" = Return pages
    /\ get_prop pages "0" = Return page
    /\ (forall first rest, pages = JArr (first :: rest) -> page = first)
    /\ get_prop page "id" = Return pageId
    /\ get_prop page "access_token" = Return (JStr "pt1")
    /\ ToString pageId = Return id
    /\ ToString (JStr "ig1") = Return account
    /\ ToString (JStr "pt1") = Return pageToken
    /\ resolution_log
       = ([]
          ++ [AxiosGet ("https://graph.facebook.com/me/accounts?access_token="
                        ++ caller);
              AxiosGet ("https://graph.facebook.com/" ++ id
                        ++ "?fields=instagram_business_account&access_token="
                        ++ pageToken);
              AxiosGet ("https://graph.instagram.com/" ++ account
                        ++ "?fields=id,username,name,profile_picture_url,followers_count,follows_count,media_count&access_token="
                        ++ pageToken)])%list
    /\ (forall resolved limit,
           parseInt_or JUndefined 25 = Return limit ->
           truthy (JStr "tok1") = true ->
           Return (JStr "acct") = Return (JStr resolved) ->
           toLowerCase resolved = toLowerCase "ACCT" ->
           snd (business_handler Scenario.upstream
                  (Scenario.get_request "ACCT" [token]) [])
           = (resolution_log
              ++ [AxiosGet ("https://graph.instagram.com/" ++ account
                            ++ "/media?fields=id,caption,media_url,media_type,timestamp,like_count,comments_count,permalink&limit="
                            ++ Number_toString limit ++ "&access_token="
                            ++ pageToken)])%list).
Proof.
  apply (page_token_used_downstream Scenario.upstream
           (Scenario.get_request "ACCT" [token]) [] resolution_log
           resolved_info).
  vm_compute. reflexivity.
Defined.

Lemma posts_returned_as_listed_witness :
  exists posts,
    getBusinessAccountPosts Scenario.upstream (JStr "ig1") (JStr "pt1")
                            (JNum 5) resolution_log
    = (Return (JArr posts),
       (resolution_log
        ++ [AxiosGet "https://graph.instagram.com/ig1/media?fields=id,caption,media_url,media_type,timestamp,like_count,comments_count,permalink&limit=5&access_token=pt1"])%list)
    /\ List.length posts = 2%nat
    /\ forall i record,
        nth_error Scenario.acct_media i = Some record ->
        exists post,
          nth_error posts i = Some post
          /\ forall field, In field post_fields ->
                           get_prop post field = get_prop record field.
Proof.
  apply (proj1 (posts_returned_as_listed Scenario.upstream (JStr "ig1")
                  (JStr "pt1") (JNum 5) resolution_log "ig1" "pt1" "5"
                  (JObj [("data", JArr Scenario.acct_media)])
                  Scenario.acct_media eq_refl eq_refl eq_refl eq_refl
                  eq_refl)).
Defined.

(** A body without [code]. *)
Lemma token_missing_field_400_witness :
  token_handler Scenario.upstream
    (mkRequest "" []
       (JObj [("app_id", JStr "123"); ("app_secret", JStr "s3cr3t");
              ("redirect_uri", JStr "https://example.com/cb")])) []
  = (mkResponse 400
       (JObj [("success", JBool false);
              ("error", JStr "code, app_id, app_secret, and redirect_uri are required")]),
     []).
Proof.
  apply (token_missing_field_400 Scenario.upstream _ [] "code").
  - left. reflexivity.
  - reflexivity.
Defined.

(** An [app_id] that is present and empty is answered 400, not with the
    URL. *)
Lemma auth_empty_app_id_rejected :
  lookup [("app_id", JStr ""); ("redirect_uri", JStr "https://example.com/cb")]
         "app_id" <> JUndefined
  /\ lookup [("app_id", JStr ""); ("redirect_uri", JStr "https://example.com/cb")]
            "redirect_uri" <> JUndefined
  /\ auth_handler
       (Scenario.get_request ""
          [("app_id", JStr "");
           ("redirect_uri", JStr "https://example.com/cb")])
     = mkResponse 400
         (JObj [("success", JBool false);
                ("error", JStr "app_id and redirect_uri are required")]).
Proof. repeat split; try discriminate; reflexivity. Qed.

Lemma auth_url_built_witness :
  auth_handler
    (Scenario.get_request ""
       [("app_id", JStr "123");
        ("redirect_uri", JStr "https://example.com/cb?x=1")])
  = mkResponse 200
      (JObj [("success", JBool true);
             ("auth_url",
              JStr "https://www.facebook.com/v18.0/dialog/oauth?client_id=123&redirect_uri=https%3A%2F%2Fexample.com%2Fcb%3Fx%3D1&scope=instagram_basic,pages_show_list,pages_read_engagement&response_type=code");
             ("instructions",
              JArr [JStr "1. Visit the auth_url to authorize your app";
                    JStr "2. Copy the authorization code from the redirect";
                    JStr "3. Exchange the code for an access token using /api/auth/token"])])
  /\ auth_handler
       (Scenario.get_request ""
          [("app_id", unconvertible);
           ("redirect_uri", JStr "https://example.com/cb")])
     = mkResponse 500
         (JObj [("success", JBool false);
                ("error", JStr "Internal server error")]).
Proof.
  split.
  - apply (proj1 (auth_url_built
                    (Scenario.get_request ""
                       [("app_id", JStr "123");
                        ("redirect_uri", JStr "https://example.com/cb?x=1")]))
                 "123" "https://example.com/cb?x=1"
                 "https%3A%2F%2Fexample.com%2Fcb%3Fx%3D1");
      reflexivity.
  - apply (proj2 (proj2 (auth_url_built
                           (Scenario.get_request ""
                              [("app_id", unconvertible);
                               ("redirect_uri",
                                JStr "https://example.com/cb")])))
                 (TypeError "Cannot convert object to primitive value")).
    + reflexivity.
    + reflexivity.
    + left. reflexivity.
Defined.


(** A limit that cannot be converted to a string: [?limit[toString]=1]. *)
Lemma public_endpoint_unconvertible_limit :
  public_handler (Scenario.get_request "anyone" [("limit", unconvertible)]) []
  = (mkResponse 500
       (JObj [("success", JBool false);
              ("error", JStr "Cannot convert object to primitive value")]),
     []).
Proof. reflexivity. Qed.

Lemma public_endpoint_never_calls_upstream_witness :
  public_handler (Scenario.get_request "anyone" [("limit", JStr "5")])
                 resolution_log
  = (mkResponse 501
       (JObj [("success", JBool false);
              ("error", JStr "Public profile scraping is no longer reliable due to Instagram's restrictions");
              ("recommendation", JStr "Use Instagram Graph API with business accounts");
              ("alternatives",
               JArr [JStr "Convert to Instagram Business account";
                     JStr "Use Instagram Graph API";
                     JStr "Use third-party services like RapidAPI"])]),
     resolution_log)
  /\ fst (public_handler
            (Scenario.get_request "anyone" [("limit", unconvertible)]) [])
     = mkResponse 500
         (JObj [("success", JBool false);
                ("error", JStr "Cannot convert object to primitive value")]).
Proof.
  destruct (public_endpoint_never_calls_upstream
              (Scenario.get_request "anyone" [("limit", JStr "5")])
              resolution_log) as (Hlog & Hplain & _).
  destruct (public_endpoint_never_calls_upstream
              (Scenario.get_request "anyone" [("limit", unconvertible)]) [])
    as (_ & _ & Hthrow).
  split.
  - rewrite (surjective_pairing (public_handler _ _)), Hlog.
    now rewrite (Hplain "5" eq_refl).
  - exact (Hthrow _ eq_refl).
Defined.

(** ** The further behaviour, run *)

Lemma no_business_account_stops_resolution_witness :
  getBusinessAccountInfo edge_upstream (JStr "tok2") []
  = (Throw (Error "Failed to get business account info: No Instagram business account connected"),
     [AxiosGet "https://graph.facebook.com/me/accounts?access_token=tok2";
      AxiosGet "https://graph.facebook.com/p2?fields=instagram_business_account&access_token=pt2"]).
Proof.
  apply (no_business_account_stops_resolution edge_upstream (JStr "tok2") []
           "tok2" "p2" "pt2"
           (page_of "p2" "pt2")
           (JObj [("id", JStr "p2"); ("access_token", JStr "pt2")])
           (JStr "p2") (JStr "pt2") (JObj [("id", JStr "p2")]) JUndefined []);
    reflexivity.
Defined.

Lemma page_without_token_witness :
  exists more,
    snd (getBusinessAccountInfo edge_upstream (JStr "tok6") [])
    = ([] ++ AxiosGet "https://graph.facebook.com/me/accounts?access_token=tok6"
          :: AxiosGet "https://graph.facebook.com/undefined?fields=instagram_business_account&access_token=undefined"
          :: more)%list.
Proof.
  apply (page_without_token edge_upstream (JStr "tok6") [] "tok6"
           (JObj [("data", JArr [JObj [("name", JStr "Page")]])])
           (JObj [("name", JStr "Page")]) []);
    reflexivity.
Defined.

Lemma access_token_required_witness :
  business_handler upstream (get_request "acct" [("access_token", JStr "")]) []
  = (mkResponse 400
       (JObj [("success", JBool false);
              ("error", JStr "Access token is required for business accounts")]),
     [])
  /\ business_handler upstream (get_request "acct" [("limit", unconvertible)])
                      []
     = (mkResponse 500
          (JObj [("success", JBool false);
                 ("error", JStr "Cannot convert object to primitive value")]),
        [])
  /\ status (fst (business_handler upstream
                    (get_request "acct" [token; ("limit", JStr "1000")]) []))
     <> 400%nat.
Proof.
  split; [|split].
  - apply (proj1 (access_token_required upstream
                    (get_request "acct" [("access_token", JStr "")]) []) 25);
      reflexivity.
  - apply (proj1 (proj2 (access_token_required upstream
                           (get_request "acct" [("limit", unconvertible)]) []))
                 (TypeError "Cannot convert object to primitive value")).
    reflexivity.
  - apply (proj2 (proj2 (access_token_required upstream
                    (get_request "acct" [token; ("limit", JStr "1000")]) []))).
    reflexivity.
Defined.

Lemma upstream_failure_echoed_witness :
  business_handler upstream (get_request "acct" (with_token "expired")) []
  = (mkResponse 500
       (JObj [("success", JBool false);
              ("error", JStr "Failed to get business account info: Request failed with status code 400")]),
     [AxiosGet "https://graph.facebook.com/me/accounts?access_token=expired"]).
Proof.
  apply (upstream_failure_echoed upstream
           (get_request "acct" (with_token "expired")) [] 25 "expired"
           "Request failed with status code 400");
    reflexivity.
Defined.

Lemma unusable_profile_username_witness :
  business_handler edge_upstream (get_request "anyone" (with_token "tok3")) []
  = (mkResponse 500
       (JObj [("success", JBool false);
              ("error", JStr "Cannot read properties of undefined (reading 'toLowerCase')")]),
     [AxiosGet "https://graph.facebook.com/me/accounts?access_token=tok3";
      AxiosGet "https://graph.facebook.com/p3?fields=instagram_business_account&access_token=pt3";
      AxiosGet "https://graph.instagram.com/ig3?fields=id,username,name,profile_picture_url,followers_count,follows_count,media_count&access_token=pt3"]).
Proof.
  refine (unusable_profile_username edge_upstream
           (get_request "anyone" (with_token "tok3")) []
           [AxiosGet "https://graph.facebook.com/me/accounts?access_token=tok3";
            AxiosGet "https://graph.facebook.com/p3?fields=instagram_business_account&access_token=pt3";
            AxiosGet "https://graph.instagram.com/ig3?fields=id,username,name,profile_picture_url,followers_count,follows_count,media_count&access_token=pt3"]
           (mkAccountInfo (JStr "ig3") (JStr "pt3") (JObj [("id", JStr "ig3")]))
           JUndefined 25 _ _ _ _ _).
  - reflexivity.
  - reflexivity.
  - vm_compute. reflexivity.
  - reflexivity.
  - discriminate.
Defined.

Lemma post_fetch_failure_witness :
  business_handler edge_upstream (get_request "Shop" (with_token "tok4")) []
  = (mkResponse 500
       (JObj [("success", JBool false);
              ("error", JStr "Failed to get business posts: Request failed with status code 403")]),
     [AxiosGet "https://graph.facebook.com/me/accounts?access_token=tok4";
      AxiosGet "https://graph.facebook.com/p4?fields=instagram_business_account&access_token=pt4";
      AxiosGet "https://graph.instagram.com/ig4?fields=id,username,name,profile_picture_url,followers_count,follows_count,media_count&access_token=pt4";
      AxiosGet "https://graph.instagram.com/ig4/media?fields=id,caption,media_url,media_type,timestamp,like_count,comments_count,permalink&limit=25&access_token=pt4"]).
Proof.
  apply (post_fetch_failure edge_upstream
           (get_request "Shop" (with_token "tok4")) []
           [AxiosGet "https://graph.facebook.com/me/accounts?access_token=tok4";
            AxiosGet "https://graph.facebook.com/p4?fields=instagram_business_account&access_token=pt4";
            AxiosGet "https://graph.instagram.com/ig4?fields=id,username,name,profile_picture_url,followers_count,follows_count,media_count&access_token=pt4"]
           (mkAccountInfo (JStr "ig4") (JStr "pt4")
              (JObj [("id", JStr "ig4"); ("username", JStr "shop")]))
           25 "shop" "ig4" "pt4" "Request failed with status code 403").
  - reflexivity.
  - reflexivity.
  - vm_compute. reflexivity.
  - reflexivity.
  - reflexivity.
  - reflexivity.
  - reflexivity.
  - vm_compute. reflexivity.
Defined.

Lemma posts_taken_unchecked_witness :
  fst (business_handler edge_upstream (get_request "cafe" (with_token "tok5")) [])
  = mkResponse 200
      (JObj [("success", JBool true);
             ("username", JStr "cafe");
             ("account_type", JStr "business");
             ("profile", JObj [("id", JStr "ig5"); ("username", JStr "cafe")]);
             ("posts", JUndefined)]).
Proof.
  apply (posts_taken_unchecked edge_upstream
           (get_request "cafe" (with_token "tok5")) []
           [AxiosGet "https://graph.facebook.com/me/accounts?access_token=tok5";
            AxiosGet "https://graph.facebook.com/p5?fields=instagram_business_account&access_token=pt5";
            AxiosGet "https://graph.instagram.com/ig5?fields=id,username,name,profile_picture_url,followers_count,follows_count,media_count&access_token=pt5"]
           (mkAccountInfo (JStr "ig5") (JStr "pt5")
              (JObj [("id", JStr "ig5"); ("username", JStr "cafe")]))
           25 "cafe" "ig5" "pt5" (JObj [("paging", JObj [])]) JUndefined).
  - reflexivity.
  - reflexivity.
  - vm_compute. reflexivity.
  - reflexivity.
  - reflexivity.
  - reflexivity.
  - reflexivity.
  - vm_compute. reflexivity.
  - reflexivity.
Defined.

Lemma limit_forwarded_unchecked_witness :
  snd (business_handler upstream
         (get_request "acct" [token; ("limit", JStr "-3")]) [])
  = (resolution_log
     ++ [AxiosGet "https://graph.instagram.com/ig1/media?fields=id,caption,media_url,media_type,timestamp,like_count,comments_count,permalink&limit=-3&access_token=pt1"])%list.
Proof.
  destruct (limit_forwarded_unchecked upstream
              (get_request "acct" [token; ("limit", JStr "-3")]) []
              resolution_log resolved_info "acct" (-3))
    as (id & t & Hid & Ht & Hlog).
  - discriminate.
  - vm_compute. discriminate.
  - reflexivity.
  - reflexivity.
  - vm_compute. reflexivity.
  - reflexivity.
  - reflexivity.
  - injection Hid as <-. injection Ht as <-. exact Hlog.
Defined.

Lemma token_exchange_success_witness :
  token_handler edge_upstream (mkRequest "" [] exchange_body) []
  = (mkResponse 200
       (JObj [("success", JBool true);
              ("access_token", JStr "EAAB");
              ("token_type", JStr "bearer");
              ("expires_in", JNum 5183944)]),
     [AxiosGet "https://graph.facebook.com/v18.0/oauth/access_token?client_id=123&redirect_uri=https%3A%2F%2Fexample.com%2Fcb&client_secret=s3cr3t&code=abc"]).
Proof.
  apply (token_exchange_success edge_upstream
           (mkRequest "" [] exchange_body) []
           (JStr "abc") (JStr "123") (JStr "s3cr3t")
           (JStr "https://example.com/cb")
           "abc" "123" "s3cr3t" "https://example.com/cb"
           "https%3A%2F%2Fexample.com%2Fcb"
           [("access_token", JStr "EAAB"); ("token_type", JStr "bearer");
            ("expires_in", JNum 5183944)]);
    reflexivity.
Defined.

Lemma public_fallback_always_fails_witness :
  getPublicProfileFallback upstream (JStr "acct") []
  = (Throw (Error "Unable to access public profile. Instagram has restricted public access."),
     [AxiosGet "https://www.instagram.com/p/acct/embed/"]).
Proof.
  destruct (public_fallback_always_fails upstream (JStr "acct") [])
    as (Hthrow & Hcall & _).
  rewrite (surjective_pairing (getPublicProfileFallback _ _ _)), Hthrow.
  now rewrite (Hcall "acct" eq_refl).
Defined.

Lemma mock_limit_out_of_range_witness :
  Mock.handler (get_request "johndoe" [("limit", JStr "51")]) []
  = (mkResponse 400
       (JObj [("success", JBool false);
              ("error", JStr "Limit must be between 1 and 50")]), [])
  /\ snd (Mock.handler (get_request "johndoe" [("limit", JStr "0")]) [])
     = [FetchInstagramData "johndoe" 12].
Proof.
  split.
  - apply (proj1 (mock_limit_out_of_range
                    (get_request "johndoe" [("limit", JStr "51")]) [] "51"
                    eq_refl eq_refl) 51).
    + reflexivity.
    + right. reflexivity.
  - apply (proj2 (mock_limit_out_of_range
                    (get_request "johndoe" [("limit", JStr "0")]) [] "0"
                    eq_refl eq_refl)).
    left. reflexivity.
Defined.

Lemma mock_unknown_user_witness :
  Mock.handler (get_request "nobody" []) []
  = (mkResponse 404
       (JObj [("success", JBool false); ("error", JStr "User not found")]),
     [FetchInstagramData "nobody" 12]).
Proof.
  apply (mock_unknown_user (get_request "nobody" []) [] 12).
  - reflexivity.
  - reflexivity.
  - vm_compute. split; discriminate.
  - vm_compute. discriminate.
  - vm_compute. discriminate.
  - vm_compute. discriminate.
Defined.

Lemma mock_inherited_key_witness :
  Mock.handler (get_request "Constructor" [("limit", JStr "5")]) []
  = (mkResponse 500
       (JObj [("success", JBool false);
              ("error", JStr "Internal server error")]),
     [FetchInstagramData "Constructor" 5]).
Proof.
  apply (mock_inherited_key
           (get_request "Constructor" [("limit", JStr "5")]) [] 5).
  - reflexivity.
  - reflexivity.
  - vm_compute. split; discriminate.
  - left. reflexivity.
  - vm_compute. discriminate.
Defined.

Lemma mock_user_posts_witness :
  exists profile stored,
    get_prop Mock.johndoe "profile" = Return profile
    /\ get_prop Mock.johndoe "posts" = Return (JArr stored)
    /\ List.length stored = 3%nat
    /\ Mock.handler (get_request "JohnDoe" [("limit", JStr "2")]) []
       = (mkResponse 200
            (JObj [("success", JBool true);
                   ("username", JStr "JohnDoe");
                   ("profile", profile);
                   ("posts", JArr (firstn 2 stored))]),
          [FetchInstagramData "JohnDoe" 2]).
Proof.
  apply (mock_user_posts (get_request "JohnDoe" [("limit", JStr "2")]) [] 2).
  - reflexivity.
  - reflexivity.
  - vm_compute. split; discriminate.
  - reflexivity.
Defined.

Lemma mock_posts_bounded_witness :
  exists limit fields posts,
    parseInt_or (JStr "2") 12 = Return limit
    /\ body (fst (Mock.handler (get_request "johndoe" [("limit", JStr "2")]) []))
       = JObj fields
    /\ lookup fields "posts" = JArr posts
    /\ (List.length posts <= 3)%nat
    /\ Z.of_nat (List.length posts) <= limit <= 50
    /\ 1 <= limit.
Proof.
  apply (mock_posts_bounded (get_request "johndoe" [("limit", JStr "2")]) []).
  reflexivity.
Defined.

Lemma oauth_url_tells_redirects_apart_witness :
  exists redirect,
    ToString (JStr "https://example.com/cb") = Return redirect
    /\ ToString (JArr [JStr "https://example.com/cb"]) = Return redirect.
Proof.
  apply (oauth_url_tells_redirects_apart (JStr "123")
           (JStr "https://example.com/cb")
           (JArr [JStr "https://example.com/cb"])
           "https://www.facebook.com/v18.0/dialog/oauth?client_id=123&redirect_uri=https%3A%2F%2Fexample.com%2Fcb&scope=instagram_basic,pages_show_list,pages_read_engagement&response_type=code");
    reflexivity.
Defined.

Lemma encodeURIComponent_no_delimiter_witness :
  Chars.forallb
    (fun c => negb (existsb (Ascii.eqb c)
                            ["&"; "="; "?"; "#"; "/"; ":"; "+"; " "; ";"]%char))
    "https%3A%2F%2Fexample.com%2Fcb%3Fx%3D1%26y%3D2" = true.
Proof.
  apply (encodeURIComponent_no_delimiter
           (JStr "https://example.com/cb?x=1&y=2")).
  reflexivity.
Defined.
